(** * AlignAI resume tailoring: pipeline agents and RAG engine

    A shallow embedding of [agents/job_analyzer.py], [agents/resume_analyzer.py],
    [agents/strategy_creator.py], [agents/resume_generator.py],
    [agents/rag_engine.py] and [agents/rag_resume_agent.py].

    Python [str] values are sequences of Unicode code points ([list N]);
    methods that raise are functions into [outcome]; methods that mutate
    [self] or touch the file system thread an explicit [State]. Hosted
    services and library calls (the Gemini model, FAISS, the LangChain
    splitter and chain, [json]) are fields of one record of externals. *)

From Stdlib Require Import String Ascii ZArith NArith Arith Bool Lia List.
From Stdlib Require Import DecimalString.
Import ListNotations.

Set Implicit Arguments.
#[local] Set Warnings "-register-all".

(* ================================================================== *)
(** ** Python strings *)

Module PyStr.

Definition char := N.
Definition str := list char.

(** An ASCII literal of the source, as code points. *)
Definition lit (s : string) : str :=
  map N_of_ascii (list_ascii_of_string s).

(** As [lit], for literals of the source that contain the double-quote
    character: the caret (absent from those literals) stands for it. *)
Definition litq (s : string) : str :=
  map (fun c => if N.eqb c 94 then 34%N else c) (lit s).

Definition nl : char := 10%N.
Definition bullet : char := 8226%N.   (* U+2022, the character of '•' *)

Fixpoint str_eqb (a b : str) : bool :=
  match a, b with
  | [], [] => true
  | x :: a', y :: b' => N.eqb x y && str_eqb a' b'
  | _, _ => false
  end.

(** [str.isspace] on one character: CPython's whitespace table. *)
Definition isspace (c : char) : bool :=
  ((9 <=? c) && (c <=? 13) || (28 <=? c) && (c <=? 32)
   || (c =? 133) || (c =? 160) || (c =? 5760)
   || (8192 <=? c) && (c <=? 8202)
   || (c =? 8232) || (c =? 8233) || (c =? 8239) || (c =? 8287)
   || (c =? 12288))%N.

(** [s.lstrip(chars)], [s.rstrip(chars)] with the set given as a predicate. *)
Fixpoint lstrip_by (p : char -> bool) (s : str) : str :=
  match s with
  | [] => []
  | c :: s' => if p c then lstrip_by p s' else s
  end.

Definition rstrip_by (p : char -> bool) (s : str) : str :=
  rev (lstrip_by p (rev s)).

(** [s.strip()] *)
Definition strip (s : str) : str := rstrip_by isspace (lstrip_by isspace s).

Definition mem_char (set : str) (c : char) : bool :=
  existsb (N.eqb c) set.

(** [s.lstrip(set)] *)
Definition lstrip_chars (set : str) (s : str) : str :=
  lstrip_by (mem_char set) s.

(** [s.startswith(p)] *)
Fixpoint startswith (p s : str) : bool :=
  match p, s with
  | [], _ => true
  | x :: p', y :: s' => N.eqb x y && startswith p' s'
  | _ :: _, [] => false
  end.

(** [s.split(sep)] for a one-character separator: never the empty list. *)
Fixpoint split_on (sep : char) (s : str) : list str :=
  match s with
  | [] => [[]]
  | c :: s' =>
      if N.eqb c sep then [] :: split_on sep s'
      else match split_on sep s' with
           | [] => [[c]]
           | w :: ws => (c :: w) :: ws
           end
  end.

(** [s.find(old)]: index of the leftmost occurrence. *)
Fixpoint find (old s : str) : option nat :=
  if startswith old s then Some 0
  else match s with
       | [] => None
       | _ :: s' => option_map S (find old s')
       end.

(** [s.replace(old, new)]: every non-overlapping occurrence, leftmost first.
    [skip] counts the characters of a matched occurrence still to drop.
    With an empty [old] Python inserts [new] before every character and at
    the end. *)
Fixpoint replace_from (old new : str) (skip : nat) (s : str) : str :=
  match s with
  | [] => []
  | c :: s' =>
      match skip with
      | S k => replace_from old new k s'
      | O =>
          if startswith old s
          then new ++ replace_from old new (length old - 1) s'
          else c :: replace_from old new 0 s'
      end
  end.

Definition replace (old new s : str) : str :=
  match old with
  | [] => new ++ flat_map (fun c => c :: new) s
  | _ :: _ => replace_from old new 0 s
  end.

(** [s[:n]] for a non-negative literal [n]. *)
Definition upto (n : nat) (s : str) : str := firstn n s.

(** [sep.join(parts)] *)
Fixpoint join (sep : str) (parts : list str) : str :=
  match parts with
  | [] => []
  | [p] => p
  | p :: rest => p ++ sep ++ join sep rest
  end.

(** [str(z)] / [f"{z}"] for an [int]. *)
Definition str_of_Z (z : Z) : str :=
  lit (NilEmpty.string_of_int (Z.to_int z)).

End PyStr.
Import PyStr.

(* ================================================================== *)
(** ** Exceptions, outcomes and JSON values *)

Inductive ExnKind :=
| ValueError | TypeError | AttributeError | ExternalError.

(** A raised exception; [exn_msg] is [str(e)]. *)
Record Exn := mkExn { exn_kind : ExnKind; exn_msg : str }.

Inductive outcome (A : Type) : Type :=
| Ok (a : A)
| Raise (e : Exn).
Arguments Raise {A} e.

(** What [json.loads] returns. A float is kept as its IEEE-754 bit pattern;
    a [dict] keeps its items in insertion order. *)
Inductive json :=
| JNull
| JBool (b : bool)
| JInt (z : Z)
| JFloat (bits : N)
| JStr (s : str)
| JArr (items : list json)
| JObj (items : list (str * json)).

Fixpoint assoc {V} (k : str) (kv : list (str * V)) : option V :=
  match kv with
  | [] => None
  | (k', v) :: rest => if str_eqb k k' then Some v else assoc k rest
  end.

(** [type(v).__name__] *)
Definition type_name (v : json) : str :=
  match v with
  | JNull => lit "NoneType"
  | JBool _ => lit "bool"
  | JInt _ => lit "int"
  | JFloat _ => lit "float"
  | JStr _ => lit "str"
  | JArr _ => lit "list"
  | JObj _ => lit "dict"
  end.

(** [d.get(k, default)]: only a [dict] has [get]. *)
Definition dict_get (d : json) (k : str) (default : json) : outcome json :=
  match d with
  | JObj kv => Ok (match assoc k kv with Some v => v | None => default end)
  | _ =>
      Raise (mkExn AttributeError
               (lit "'" ++ type_name d ++ lit "' object has no attribute 'get'"))
  end.

(** [len(v)]: strings, lists and dicts are sized, the rest raises. *)
Definition py_len (v : json) : outcome nat :=
  match v with
  | JStr s => Ok (length s)
  | JArr l => Ok (length l)
  | JObj kv => Ok (length kv)
  | _ =>
      Raise (mkExn TypeError
               (lit "object of type '" ++ type_name v ++ lit "' has no len()"))
  end.

(** [bool(v)] *)
Definition truthy (v : json) : bool :=
  match v with
  | JNull => false
  | JBool b => b
  | JInt z => negb (Z.eqb z 0)
  | JFloat bits => negb (N.eqb (N.land bits (2 ^ 63 - 1)) 0)
  | JStr s => negb (Nat.eqb (length s) 0)
  | JArr l => negb (Nat.eqb (length l) 0)
  | JObj kv => negb (Nat.eqb (length kv) 0)
  end.

(* ================================================================== *)
(** ** Documents, the vector index and the state the methods act on *)

Inductive MetaVal := MStr (s : str) | MInt (z : Z).

(** [langchain.schema.Document] *)
Record Document := mkDocument {
  page_content : str;
  metadata : list (str * MetaVal)
}.

(** A FAISS index, as the chunks it was built from and extended with. *)
Definition VectorStore := list Document.

(** Calls that leave the process, in the order they were made. *)
Inductive Event :=
| EvGenerate (prompt : str)                       (* generate_content(prompt) *)
| EvFromDocuments (chunks : list Document)        (* FAISS.from_documents *)
| EvSaveLocal (path : str)                        (* vector_store.save_local *)
| EvLoadLocal (path : str)                        (* FAISS.load_local *)
| EvSimilaritySearch (query : str) (k : Z)        (* vector_store.similarity_search *)
| EvAddDocuments (chunks : list Document)         (* vector_store.add_documents *)
| EvRetrievalQA (template query : str) (k : Z)    (* the RetrievalQA chain call *)
| EvWrite (path content : str).                   (* open(path, 'w') and write *)

Record State := mkState {
  vector_store : option VectorStore;       (* RAGEngine.vector_store *)
  persisted : list (str * VectorStore);    (* indexes saved under a path *)
  files : list (str * str);                (* text files written *)
  log : list Event
}.

Definition set_store (v : option VectorStore) (st : State) : State :=
  mkState v (persisted st) (files st) (log st).
Definition set_persisted (p : list (str * VectorStore)) (st : State) : State :=
  mkState (vector_store st) p (files st) (log st).
Definition set_files (f : list (str * str)) (st : State) : State :=
  mkState (vector_store st) (persisted st) f (log st).
Definition record (e : Event) (st : State) : State :=
  mkState (vector_store st) (persisted st) (files st) (log st ++ [e]).

(** Services and library functions the source calls. A hosted call also
    sees the calls made so far, so that two calls with the same argument
    need not agree. *)
Record Externals := mkExternals {
  (* model.generate_content(prompt).text *)
  generate_content : list Event -> str -> outcome str;
  json_loads : str -> outcome json;
  (* json.dumps(v, indent=2) *)
  json_dumps : json -> str;
  (* text_splitter.split_documents *)
  split_documents : list Document -> outcome (list Document);
  (* failure of the embedding call behind from_documents / add_documents *)
  embed_error : list Event -> list Document -> option Exn;
  save_error : list Event -> str -> option Exn;
  load_error : list Event -> str -> option Exn;
  similarity_search :
    list Event -> VectorStore -> str -> Z -> outcome (list Document);
  (* RetrievalQA over (llm, retriever of the store with k, prompt), called
     on the query: the answer and the source documents *)
  retrieval_qa :
    list Event -> VectorStore -> str -> str -> Z -> outcome (str * list Document);
  (* os.path.join *)
  path_join : str -> str -> str;
  (* os.path.dirname(__file__) of resume_generator.py *)
  module_dir : str;
  open_error : list Event -> str -> option Exn;
  (* str.isdigit on a character outside ASCII *)
  unicode_isdigit : char -> bool
}.

(* ================================================================== *)
(** ** The monad of methods: state is kept when an exception is raised *)

Definition M (A : Type) : Type := State -> outcome A * State.

Definition ret {A} (a : A) : M A := fun st => (Ok a, st).
Definition raise {A} (e : Exn) : M A := fun st => (Raise e, st).

Definition bind {A B} (m : M A) (k : A -> M B) : M B :=
  fun st =>
    match m st with
    | (Ok a, st') => k a st'
    | (Raise e, st') => (Raise e, st')
    end.

(** [try: m except Exception as e: h e] *)
Definition try_except {A} (m : M A) (h : Exn -> M A) : M A :=
  fun st =>
    match m st with
    | (Ok a, st') => (Ok a, st')
    | (Raise e, st') => h e st'
    end.

Definition lift {A} (o : outcome A) : M A := fun st => (o, st).
Definition get_store : M (option VectorStore) :=
  fun st => (Ok (vector_store st), st).
Definition put_store (v : option VectorStore) : M unit :=
  fun st => (Ok tt, set_store v st).

Declare Scope py_scope.
Delimit Scope py_scope with py.
Notation "x <- m ;; k" := (bind m (fun x => k))
  (at level 61, m at next level, right associativity) : py_scope.
Notation "m ;;; k" := (bind m (fun _ => k))
  (at level 61, right associativity) : py_scope.
Open Scope py_scope.

(* ================================================================== *)
(** ** External calls as actions *)

Section Methods.

Variable X : Externals.

(** [c.isdigit()] *)
Definition isdigit (c : char) : bool :=
  if (c <? 128)%N then ((48 <=? c) && (c <=? 57))%N else unicode_isdigit X c.

(** [model.generate_content(prompt)] followed by [response.text] *)
Definition model_generate (prompt : str) : M str :=
  fun st => (generate_content X (log st) prompt, record (EvGenerate prompt) st).

(** [FAISS.from_documents(documents=chunks, embedding=...)] *)
Definition faiss_from_documents (chunks : list Document) : M VectorStore :=
  fun st =>
    (match embed_error X (log st) chunks with
     | Some e => Raise e
     | None => Ok chunks
     end, record (EvFromDocuments chunks) st).

(** [vs.save_local(path)]; a save that raises is taken to leave the saved
    indexes as they were. *)
Definition faiss_save_local (vs : VectorStore) (path : str) : M unit :=
  fun st =>
    match save_error X (log st) path with
    | Some e => (Raise e, record (EvSaveLocal path) st)
    | None =>
        (Ok tt,
         record (EvSaveLocal path) (set_persisted ((path, vs) :: persisted st) st))
    end.

(** [os.path.exists(path)] for an index path *)
Definition path_exists (path : str) : M bool :=
  fun st =>
    (Ok (match assoc path (persisted st) with Some _ => true | None => false end),
     st).

(** [FAISS.load_local(path, embeddings, allow_dangerous_deserialization=True)] *)
Definition faiss_load_local (path : str) : M VectorStore :=
  fun st =>
    (match load_error X (log st) path with
     | Some e => Raise e
     | None =>
         match assoc path (persisted st) with
         | Some vs => Ok vs
         | None => Raise (mkExn ExternalError (lit "index files not found"))
         end
     end, record (EvLoadLocal path) st).

(** [vs.similarity_search(query, k=k)] *)
Definition faiss_similarity_search (vs : VectorStore) (query : str) (k : Z)
  : M (list Document) :=
  fun st =>
    (similarity_search X (log st) vs query k,
     record (EvSimilaritySearch query k) st).

(** [self.vector_store.add_documents(chunks)]: the index object is extended
    in place. *)
Definition faiss_add_documents (chunks : list Document) : M unit :=
  fun st =>
    match vector_store st with
    | None =>
        (Raise (mkExn AttributeError (lit "'NoneType' object has no attribute 'add_documents'")), st)
    | Some vs =>
        match embed_error X (log st) chunks with
        | Some e => (Raise e, record (EvAddDocuments chunks) st)
        | None =>
            (Ok tt,
             record (EvAddDocuments chunks) (set_store (Some (vs ++ chunks)) st))
        end
    end.

(** [qa_chain({"query": query})] for the chain built over the store's
    retriever with [search_kwargs={"k": k}] and the prompt [template]. *)
Definition run_qa_chain (vs : VectorStore) (template query : str) (k : Z)
  : M (str * list Document) :=
  fun st =>
    (retrieval_qa X (log st) vs template query k,
     record (EvRetrievalQA template query k) st).

(** [with open(path, 'w') as f: f.write(content)] *)
Definition write_file (path content : str) : M unit :=
  fun st =>
    match open_error X (log st) path with
    | Some e => (Raise e, st)
    | None =>
        (Ok tt, record (EvWrite path content) (set_files ((path, content) :: files st) st))
    end.

(* ================================================================== *)
(** ** The prompts *)

(** The f-string [prompt] of [analyze_job_description]. *)
Definition job_prompt (job_description : str) : str :=
  lit "You are a job requirement analyzer. Analyze this job description.

Job Description:
"
  ++ job_description
  ++ litq "

Extract and return the following in JSON format:
{
    ^required_skills^: [^list^, ^of^, ^skills^],
    ^nice_to_have_skills^: [^optional^, ^skills^],
    ^education_required^: ^degrees or certifications^
    ^experience_level^: ^e.g., 2-3 years^,
    ^key_responsibilities^: [^main^, ^duties^],
    ^important_keywords^: [^keywords^, ^for^, ^ATS^],
    ^company_culture^: ^brief description of culture if mentioned^
}

Be thorough. Return ONLY the JSON, no other text.".

(** The f-string [prompt] of [analyze_resume]. *)
Definition resume_prompt (resume_text : str) : str :=
  lit "You are a resume analyzer. Extract ALL information from this resume.

Resume:
"
  ++ resume_text
  ++ litq "

Extract and return the following in JSON format:
{
    ^name^: ^Full name if present^,
    ^contact_info^: {
        ^email^: ^email if present^,
        ^phone^: ^phone if present^,
        ^location^: ^location if present^,
        ^linkedin^: ^LinkedIn URL if present^,
        ^github^: ^GitHub profile URL if present^,
        ^portfolio^: ^Portfolio or personal website URL if present^
    },
    ^summary^: ^Professional summary/objective if present^,
    ^skills^: [^list^, ^all^, ^skills^, ^mentioned^],
    ^technical_skills^: [^specific^, ^technical^, ^skills^],
    ^soft_skills^: [^communication^, ^leadership^, ^etc^],
    ^experience^: [
        {
            ^title^: ^Job title^,
            ^company^: ^Company name^,
            ^duration^: ^Time period^,
            ^responsibilities^: [^what^, ^they^, ^did^]
        }
    ],
    ^education^: [
        {
            ^degree^: ^Degree name^,
            ^institution^: ^School name^,
            ^year^: ^Graduation year^,
            ^details^: ^Relevant coursework, GPA, etc if mentioned^
        }
    ],
    ^projects^: [^List any projects mentioned^],
    ^achievements^: [^Notable achievements or awards^],
    ^certifications^: [^Any certifications^],
    ^extracurricular_activities^: [^Clubs, volunteering, leadership, sports, hobbies if mentioned^]
}

IMPORTANT: 
- Extract GitHub link if present (github.com/username)
- Extract portfolio/website if present
- Extract ALL extracurricular activities mentioned
- If any field doesn't exist, use null or empty array

Be thorough. Return ONLY the JSON, no other text.".

(** The f-string [prompt] of [create_matching_strategy]. *)
Definition strategy_prompt (job_analysis resume_data : json) : str :=
  lit "You are an expert resume strategist. Your job is to create a detailed strategy for tailoring a resume to maximize the match with a job posting.

JOB REQUIREMENTS:
"
  ++ json_dumps X job_analysis
  ++ lit "

CANDIDATE'S BACKGROUND:
"
  ++ json_dumps X resume_data
  ++ litq "

Analyze the match and create a strategic plan in JSON format:
{
    ^overall_match_score^: ^Rate 0-100 how well candidate matches^,
    ^match_summary^: ^Brief summary of the match quality^,
    
    ^strong_matches^: [
        {
            ^skill_or_experience^: ^What matches strongly^,
            ^evidence^: ^Where in resume this is shown^,
            ^strategy^: ^How to emphasize this^
        }
    ],
    
    ^partial_matches^: [
        {
            ^requirement^: ^What partially matches^,
            ^candidate_has^: ^What candidate actually has^,
            ^strategy^: ^How to position this positively^
        }
    ],
    
    ^gaps^: [
        {
            ^missing^: ^What's required but missing^,
            ^severity^: ^critical/moderate/minor^,
            ^mitigation^: ^How to address or downplay this gap^
        }
    ],
    
    ^skills_to_emphasize^: [
        {
            ^skill^: ^Skill name^,
            ^reason^: ^Why emphasize^,
            ^how^: ^Where and how to highlight^
        }
    ],
    
    ^experience_to_highlight^: [
        {
            ^experience^: ^Which job/project^,
            ^why^: ^Why relevant to this position^,
            ^key_achievements^: [^What to emphasize from this role^]
        }
    ],
    
    ^keywords_to_add^: [^ATS-friendly keywords to incorporate^],
    
    ^structural_recommendations^: {
        ^summary_focus^: ^What to emphasize in summary^,
        ^skills_section^: ^How to organize skills^,
        ^experience_order^: ^Any reordering needed^,
        ^what_to_deemphasize^: [^What to minimize or remove^]
    },
    
    ^enhanced_elements^: {
        ^github_strategy^: ^How to leverage GitHub profile if present^,
        ^portfolio_strategy^: ^How to leverage portfolio if present^,
        ^extracurriculars_strategy^: ^Which activities to highlight and why^
    },
    
    ^differentiation_strategy^: ^How to stand out from other candidates^,
    
    ^specific_actions^: [
        ^Concrete action item 1^,
        ^Concrete action item 2^
    ]
}

IMPORTANT: 
- Be specific and actionable
- Consider ATS optimization
- Identify transferable skills even if not exact match
- Leverage ALL enhanced fields (GitHub, portfolio, extracurriculars)
- Think strategically about positioning

Return ONLY the JSON, no other text.".

(** The f-string [prompt] of [generate_tailored_resume]. *)
Definition render_prompt (resume_data strategy job_analysis : json) : str :=
  lit "You are an expert resume writer. Generate tailored resume CONTENT in LaTeX format.

ORIGINAL RESUME DATA:
"
  ++ json_dumps X resume_data
  ++ lit "

JOB REQUIREMENTS:
"
  ++ json_dumps X job_analysis
  ++ lit "

STRATEGIC PLAN (MUST FOLLOW):
"
  ++ json_dumps X strategy
  ++ lit "

Generate ONLY the resume content sections in LaTeX format. Use these LaTeX commands:

HEADER FORMAT:
\begin{center}
    {\Huge \scshape [NAME]} \\ \vspace{1pt}
    \small \raisebox{-0.1\height}\faPhone\ [PHONE] ~ 
    \href{mailto:[EMAIL]}{\raisebox{-0.2\height}\faEnvelope\ [EMAIL]} ~ 
    \href{[LINKEDIN]}{\raisebox{-0.2\height}\faLinkedin\ LinkedIn} ~
    \href{[GITHUB]}{\raisebox{-0.2\height}\faGithub\ GitHub}
    \vspace{-8pt}
\end{center}

SUMMARY SECTION:
\section{Summary}
[Write strategic summary emphasizing what strategy recommends]

EDUCATION SECTION:
\section{Education}
  \resumeSubHeadingListStart
    \resumeSubheading
      {[Degree]}{[Location]}
      {[Program Details]}{[Dates]}
  \resumeSubHeadingListEnd
\vspace{-12pt}

EXPERIENCE SECTION:
\section{Professional Experience}
  \resumeSubHeadingListStart
    \resumeSubheading
      {[Job Title]}{[Dates]}
      {[Company]}{[Location]}
      \resumeItemListStart
        \resumeItem{[Bullet point emphasizing relevant skills]}
        \resumeItem{[Bullet point with keywords from strategy]}
      \resumeItemListEnd
  \resumeSubHeadingListEnd
\vspace{-16pt}

PROJECTS SECTION:
\section{Key Projects}
    \vspace{-5pt}
    \resumeSubHeadingListStart
      \resumeProjectHeading
          {\textbf{[Project Name]} $|$ \emph{[Technologies]}},{[Year]}
          \resumeItemListStart
            \resumeItem{[Achievement]}
          \resumeItemListEnd
          \vspace{-13pt}
    \resumeSubHeadingListEnd

SKILLS SECTION:
\section{Technical Skills}
 \begin{itemize}[leftmargin=0.15in, label={}]
    \small{\item{
     \textbf{[Category]:} [Skills list] \\
    }}
 \end{itemize}
\vspace{-16pt}

CRITICAL INSTRUCTIONS:
1. FOLLOW THE STRATEGY EXACTLY - emphasize what it says to emphasize
2. INCORPORATE all keywords from strategy naturally
3. If GitHub/Portfolio present in contact_info, include them in header
4. If extracurriculars exist and strategy recommends, add them as section
5. ORDER sections per strategy recommendations
6. Make summary compelling and targeted to the job
7. Quantify achievements where possible
8. Use strong action verbs
9. Ensure ATS-friendly (keywords, formatting)
10. Keep LaTeX syntax PERFECT - no syntax errors

Generate the COMPLETE resume content starting with the header and ending with the last section.
Do NOT include \documentclass or \begin{document} - only the content sections.
".

(** The [prompt] of [get_suggestions] when a job description is present. *)
Definition job_alignment_prompt (resume_text job_description : str) : str :=
  lit "You are an expert resume coach. Analyze this resume against the job description and provide specific, actionable improvements.

RESUME:
"
  ++ upto 3000 resume_text
  ++ lit "

TARGET JOB DESCRIPTION:
"
  ++ upto 2000 job_description
  ++ lit "

Provide exactly 5 specific, actionable suggestions. Each suggestion should:
- Start with a clear action verb (Add, Quantify, Highlight, Reframe, Include)
- Be specific to this resume's content
- Directly improve alignment with the job requirements

Format each suggestion as a single numbered line like:
1. [Action] - [Specific recommendation]

SUGGESTIONS:".

(** The [prompt] of [get_suggestions] otherwise. *)
Definition general_quality_prompt (resume_text : str) : str :=
  lit "You are an expert resume coach. Analyze this resume and provide specific improvements to make it stronger and more impactful.

RESUME:
"
  ++ upto 3000 resume_text
  ++ lit "

Provide exactly 5 specific, actionable suggestions to improve this resume. Focus on:
- Adding quantifiable metrics and achievements
- Strengthening action verbs
- Improving professional impact
- Highlighting transferable skills
- Enhancing overall clarity and readability

Format each suggestion as a single numbered line like:
1. [Action] - [Specific recommendation based on actual content in the resume]

SUGGESTIONS:".

(** [prompt_template] of [generate_tailored_content]; [{context}] and
    [{instruction}] are left for the chain to fill. *)
Definition prompt_template : str :=
  lit "You are an expert resume writer and career coach. 
You help tailor resumes to match job descriptions perfectly.

CONTEXT (Resume + Job Description):
{context}

USER INSTRUCTION:
{instruction}

TASK:
Based on the context above and the user's instruction, generate tailored resume content.
Focus on:
1. Matching keywords from job description
2. Quantifying achievements
3. Using action verbs
4. Highlighting relevant skills
5. Maintaining professional tone

Generate clear, impactful bullet points or sections that align with the job requirements.

TAILORED CONTENT:".

(* ================================================================== *)
(** ** Stages 1-3: job analysis, resume analysis, strategy

    The [print] calls of the source write to stdout only and are left out;
    the expressions they format are evaluated, because [len] and [get]
    raise on a value of the wrong shape. *)

(** [response.text.replace('```json', '').replace('```', '').strip()] *)
Definition strip_json_fences (text : str) : str :=
  strip (replace (lit "```") [] (replace (lit "```json") [] text)).

(** [len(d.get(key, []))] *)
Definition len_of_field (d : json) (key : string) : outcome nat :=
  match dict_get d (lit key) (JArr []) with
  | Ok v => py_len v
  | Raise e => Raise e
  end.

Definition seq_outcome {A B} (o : outcome A) (k : A -> outcome B) : outcome B :=
  match o with Ok a => k a | Raise e => Raise e end.

(** The summary printed by [analyze_job_description]. *)
Definition job_report (job_analysis : json) : outcome unit :=
  seq_outcome (len_of_field job_analysis "required_skills") (fun _ =>
  seq_outcome (dict_get job_analysis (lit "experience_level") (JStr (lit "Not specified"))) (fun _ =>
  seq_outcome (len_of_field job_analysis "key_responsibilities") (fun _ =>
  Ok tt))).

(** [JobAnalyzerAgent.analyze_job_description] *)
Definition analyze_job_description (job_description : str) : M json :=
  try_except
    (response_text <- model_generate (job_prompt job_description) ;;
     job_analysis <- lift (json_loads X (strip_json_fences response_text)) ;;
     lift (job_report job_analysis) ;;;
     ret job_analysis)
    (fun e => raise e).

(** The summary printed by [analyze_resume]. *)
Definition resume_report (resume_data : json) : outcome unit :=
  seq_outcome (dict_get resume_data (lit "name") (JStr (lit "Not found"))) (fun _ =>
  seq_outcome (len_of_field resume_data "skills") (fun _ =>
  seq_outcome (len_of_field resume_data "experience") (fun _ =>
  seq_outcome (len_of_field resume_data "education") (fun _ =>
  seq_outcome (len_of_field resume_data "projects") (fun _ =>
  seq_outcome (dict_get resume_data (lit "contact_info") (JObj [])) (fun contact =>
  seq_outcome (dict_get contact (lit "github") JNull) (fun _ =>
  seq_outcome (dict_get contact (lit "portfolio") JNull) (fun _ =>
  seq_outcome (dict_get resume_data (lit "extracurricular_activities") (JArr [])) (fun extracurriculars =>
  if truthy extracurriculars
  then seq_outcome (py_len extracurriculars) (fun _ => Ok tt)
  else Ok tt))))))))).

(** [ResumeAgent.analyze_resume] *)
Definition analyze_resume (resume_text : str) : M json :=
  try_except
    (response_text <- model_generate (resume_prompt resume_text) ;;
     resume_data <- lift (json_loads X (strip_json_fences response_text)) ;;
     lift (resume_report resume_data) ;;;
     ret resume_data)
    (fun e => raise e).

(** The summary printed by [create_matching_strategy]. *)
Definition strategy_report (strategy : json) : outcome unit :=
  seq_outcome (dict_get strategy (lit "overall_match_score") (JStr (lit "N/A"))) (fun _ =>
  seq_outcome (len_of_field strategy "strong_matches") (fun _ =>
  seq_outcome (len_of_field strategy "partial_matches") (fun _ =>
  seq_outcome (len_of_field strategy "gaps") (fun _ =>
  seq_outcome (len_of_field strategy "skills_to_emphasize") (fun _ =>
  seq_outcome (len_of_field strategy "keywords_to_add") (fun _ =>
  Ok tt)))))).

(** [StrategyAgent.create_matching_strategy] *)
Definition create_matching_strategy (job_analysis resume_data : json) : M json :=
  try_except
    (response_text <- model_generate (strategy_prompt job_analysis resume_data) ;;
     strategy <- lift (json_loads X (strip_json_fences response_text)) ;;
     lift (strategy_report strategy) ;;;
     ret strategy)
    (fun e => raise e).

(** The dict returned by [run_complete_analysis]. *)
Record Analysis := mkAnalysis {
  job_analysis : json;
  resume_data : json;
  strategy : json
}.

Definition analysis_dict (a : Analysis) : json :=
  JObj [ (lit "job_analysis", job_analysis a);
         (lit "resume_data", resume_data a);
         (lit "strategy", strategy a) ].

(** [StrategyAgent.run_complete_analysis] *)
Definition run_complete_analysis (job_description resume_text : str) : M Analysis :=
  job_analysis <- analyze_job_description job_description ;;
  resume_data <- analyze_resume resume_text ;;
  strategy <- create_matching_strategy job_analysis resume_data ;;
  ret (mkAnalysis job_analysis resume_data strategy).

(* ================================================================== *)
(** ** Stage 4: the resume generator *)

Definition placeholder : str := lit "{{CONTENT}}".

(** [latex_content.replace('```latex', '').replace('```', '').strip()] *)
Definition strip_latex_fences (text : str) : str :=
  strip (replace (lit "```") [] (replace (lit "```latex") [] text)).

(** [self.latex_template.replace('{{CONTENT}}', latex_content)] *)
Definition merge_template (latex_template latex_content : str) : str :=
  replace placeholder latex_content latex_template.

(** [ResumeGeneratorAgent.generate_tailored_resume]; [latex_template] is
    [self.latex_template]. *)
Definition generate_tailored_resume (latex_template : str)
    (resume_data strategy job_analysis : json) : M str :=
  try_except
    (response_text <- model_generate (render_prompt resume_data strategy job_analysis) ;;
     let latex_content := strip_latex_fences response_text in
     let final_resume := merge_template latex_template latex_content in
     ret final_resume)
    (fun e => raise e).

(** [ResumeGeneratorAgent.run_complete_pipeline] *)
Definition run_complete_pipeline (latex_template : str)
    (job_description resume_text output_filename : str) : M str :=
  analysis <- run_complete_analysis job_description resume_text ;;
  let job_analysis := job_analysis analysis in
  let resume_data := resume_data analysis in
  let strategy := strategy analysis in
  tailored_resume <-
    generate_tailored_resume latex_template resume_data strategy job_analysis ;;
  let output_path := path_join X (module_dir X) output_filename in
  write_file output_path tailored_resume ;;;
  lift (dict_get strategy (lit "overall_match_score") (JStr (lit "N/A"))) ;;;
  let analysis_file := replace (lit ".tex") (lit "_analysis.json") output_filename in
  write_file analysis_file (json_dumps X (analysis_dict analysis)) ;;;
  ret output_path.

(* ================================================================== *)
(** ** The RAG engine *)

Definition vector_store_path : str := lit "./vector_stores".

(** [os.path.join(self.vector_store_path, f"user_{user_id}")] *)
Definition store_path_of (user_id : str) : str :=
  path_join X vector_store_path (lit "user_" ++ user_id).

(** [job_description and len(job_description.strip()) > 50] *)
Definition meaningful (job_description : option str) : bool :=
  match job_description with
  | None => false
  | Some jd => negb (Nat.eqb (length jd) 0) && (50 <? length (strip jd))
  end.

Definition text_of (job_description : option str) : str :=
  match job_description with Some jd => jd | None => [] end.

Definition resume_document (resume_text user_id : str) : Document :=
  mkDocument resume_text
    [ (lit "source", MStr (lit "resume"));
      (lit "user_id", MStr user_id);
      (lit "type", MStr (lit "resume")) ].

Definition jd_document (job_description user_id : str) : Document :=
  mkDocument job_description
    [ (lit "source", MStr (lit "job_description"));
      (lit "user_id", MStr user_id);
      (lit "type", MStr (lit "jd")) ].

(** The dict returned by [ingest_documents]: the one with ["success": True]
    or the one with ["success": False]. *)
Inductive IngestResult :=
| IngestOk (chunks_created : nat) (has_job_description : bool)
           (vector_store_path message : str)
| IngestFail (error message : str).

(** The documents list built at the start of [ingest_documents]. *)
Definition ingest_documents_list (resume_text : str)
    (job_description : option str) (user_id : str) : list Document :=
  let documents := [resume_document resume_text user_id] in
  if meaningful job_description
  then documents ++ [jd_document (text_of job_description) user_id]
  else documents.

(** [RAGEngine.ingest_documents] *)
Definition ingest_documents (resume_text : str) (job_description : option str)
    (user_id : str) : M IngestResult :=
  try_except
    (let documents := ingest_documents_list resume_text job_description user_id in
     let has_jd := meaningful job_description in
     chunks <- lift (split_documents X documents) ;;
     vs <- faiss_from_documents chunks ;;
     put_store (Some vs) ;;;
     let store_path := store_path_of user_id in
     faiss_save_local vs store_path ;;;
     ret (IngestOk (length chunks) has_jd store_path
            (lit "Resume ingested successfully! "
             ++ (if has_jd then lit "Job description also added."
                 else lit "Add a job description for better tailoring."))))
    (fun e =>
       ret (IngestFail (exn_msg e)
              (lit "Failed to ingest documents. Check GEMINI_API_KEY."))).

(** [RAGEngine.retrieve_context] *)
Definition retrieve_context (query : str) (k : Z) : M (list Document) :=
  store <- get_store ;;
  match store with
  | None =>
      raise (mkExn ValueError
               (lit "Vector store not initialized. Call ingest_documents first."))
  | Some vs => faiss_similarity_search vs query k
  end.

(** The dict returned by [generate_tailored_content], by its ["success"]. *)
Inductive GenResult :=
| GenOk (tailored_content : str) (source_documents : list str) (instruction : str)
| GenFail (error message : str).

(** A Python string used as a condition. *)
Definition nonempty (s : option str) : bool :=
  match s with
  | Some (_ :: _) => true
  | _ => false
  end.

(** [generate_tailored_content] from the comment [# Retrieve relevant
    context] on, once [self.vector_store] is set. The local [context] is
    assigned and not read again: the chain is given the store's retriever,
    the prompt and the query. *)
Definition generate_from_store (instruction : str)
    (context_override : option str) : M GenResult :=
  context <-
    (if nonempty context_override
     then ret (text_of context_override)
     else
       relevant_docs <- retrieve_context instruction 5 ;;
       ret (join (lit "

") (map page_content relevant_docs))) ;;
  store <- get_store ;;
  match store with
  | None =>
      raise (mkExn AttributeError
               (lit "'NoneType' object has no attribute 'as_retriever'"))
  | Some vs =>
      result <- run_qa_chain vs prompt_template instruction 5 ;;
      ret (GenOk (fst result)
             (map (fun doc => upto 200 (page_content doc)) (snd result))
             instruction)
  end.

(** [RAGEngine.generate_tailored_content] *)
Definition generate_tailored_content (instruction user_id : str)
    (context_override : option str) : M GenResult :=
  try_except
    (store <- get_store ;;
     match store with
     | Some _ => generate_from_store instruction context_override
     | None =>
         let store_path := store_path_of user_id in
         found <- path_exists store_path ;;
         if found
         then
           vs <- faiss_load_local store_path ;;
           put_store (Some vs) ;;;
           generate_from_store instruction context_override
         else
           ret (GenFail
                  (lit "Vector store not found. Please analyze documents first.")
                  (lit "Call /api/rag/analyze first to ingest documents"))
     end)
    (fun e =>
       ret (GenFail (exn_msg e) (lit "Failed to generate tailored content"))).

(** The dict returned by [learn_from_feedback]. *)
Inductive LearnResult :=
| LearnStored (message : str)         (* success True *)
| LearnNotInitialized (message : str) (* success False, no error key *)
| LearnError (error : str).           (* success False, error = str(e) *)

(** The [page_content] of the feedback document. *)
Definition feedback_block (instruction generated_content feedback : str)
    (rating : Z) : str :=
  lit "
INSTRUCTION: " ++ instruction ++ lit "
GENERATED: " ++ generated_content ++ lit "
USER FEEDBACK: " ++ feedback ++ lit "
RATING: " ++ str_of_Z rating ++ lit "/5
                ".

Definition feedback_document (user_id instruction generated_content feedback : str)
    (rating : Z) : Document :=
  mkDocument (feedback_block instruction generated_content feedback rating)
    [ (lit "type", MStr (lit "feedback"));
      (lit "user_id", MStr user_id);
      (lit "rating", MInt rating) ].

(** [RAGEngine.learn_from_feedback] *)
Definition learn_from_feedback (user_id instruction generated_content feedback : str)
    (rating : Z) : M LearnResult :=
  try_except
    (let feedback_doc :=
       feedback_document user_id instruction generated_content feedback rating in
     store <- get_store ;;
     match store with
     | Some _ =>
         chunks <- lift (split_documents X [feedback_doc]) ;;
         faiss_add_documents chunks ;;;
         ret (LearnStored (lit "Feedback stored for continuous learning"))
     | None => ret (LearnNotInitialized (lit "Vector store not initialized"))
     end)
    (fun e => ret (LearnError (exn_msg e))).

(** The test of the suggestion loop: a non-empty stripped line that starts
    with a digit, a dash or a bullet. *)
Definition list_like (line : str) : bool :=
  match line with
  | [] => false
  | c :: _ =>
      isdigit c || startswith (lit "-") line || startswith [bullet] line
  end.

(** The argument of [lstrip] in the loop: ['0123456789.-•) ']. *)
Definition marker_chars : str := lit "0123456789.-" ++ [bullet] ++ lit ") ".

(** The body of the [for line in raw_lines] loop, as the entries it appends. *)
Definition numbered_entry (line : str) : list str :=
  let line := strip line in
  if list_like line
  then
    let cleaned := strip (lstrip_chars marker_chars line) in
    if negb (Nat.eqb (length cleaned) 0) && (10 <? length cleaned)
    then [cleaned] else []
  else [].

(** [[s.strip() for s in raw_lines if s.strip() and len(s.strip()) > 10]] *)
Definition raw_entries (raw_lines : list str) : list str :=
  flat_map (fun s =>
    if negb (Nat.eqb (length (strip s)) 0) && (10 <? length (strip s))
    then [strip s] else []) raw_lines.

(** The parsing part of [get_suggestions]. *)
Definition parse_suggestions (response_text : str) : list str :=
  let raw_lines := split_on nl (strip response_text) in
  let suggestions := flat_map numbered_entry raw_lines in
  let suggestions :=
    match suggestions with
    | [] => raw_entries raw_lines
    | _ :: _ => suggestions
    end in
  firstn 5 suggestions.

(** The prompt chosen by the [if has_specific_jd] of [get_suggestions]. *)
Definition suggestions_prompt (resume_text : str)
    (job_description : option str) : str :=
  let has_specific_jd := meaningful job_description in
  if has_specific_jd
  then job_alignment_prompt resume_text (text_of job_description)
  else general_quality_prompt resume_text.

(** [RAGEngine.get_suggestions] *)
Definition get_suggestions (resume_text : str) (job_description : option str)
    : M (list str) :=
  try_except
    (let prompt := suggestions_prompt resume_text job_description in
     response_text <- model_generate prompt ;;
     ret (parse_suggestions response_text))
    (fun e =>
       ret [lit "Unable to generate suggestions: " ++ exn_msg e
            ++ lit ". Please check your GEMINI_API_KEY."]).

(* ================================================================== *)
(** ** The RAG resume agent *)

Record Refinement := mkRefinement {
  learning_status : LearnResult;
  refined_content : GenResult;
  improvement_applied : bool
}.

(** The f-string of [interactive_refinement]. *)
Definition refined_instruction_of (previous_instruction feedback : str) : str :=
  previous_instruction ++ lit "

User Feedback: " ++ feedback ++ lit "

Please improve based on this feedback.".

(** [RAGResumeAgent.interactive_refinement] *)
Definition interactive_refinement (user_id feedback : str) (rating : Z)
    (previous_instruction previous_content : str) : M Refinement :=
  learn_result <-
    learn_from_feedback user_id previous_instruction previous_content
      feedback rating ;;
  let refined_instruction :=
    refined_instruction_of previous_instruction feedback in
  refined_content <- generate_tailored_content refined_instruction user_id None ;;
  ret (mkRefinement learn_result refined_content true).

End Methods.

Arguments job_prompt : simpl never.
Arguments resume_prompt : simpl never.
Arguments strategy_prompt : simpl never.
Arguments render_prompt : simpl never.
Arguments job_alignment_prompt : simpl never.
Arguments general_quality_prompt : simpl never.
Arguments prompt_template : simpl never.

(* ================================================================== *)
(** ** Construction of the agents and the module-level singletons *)

(** What the constructors and the callers read from the host process. *)
Record Host := mkHost {
  (* os.getenv('GEMINI_API_KEY') *)
  gemini_api_key : option str;
  (* open(template_path, 'r').read() for resume_template.tex *)
  template_file : outcome str;
  (* an exception of the client constructors or of
     os.makedirs(self.vector_store_path, exist_ok=True) in RAGEngine.__init__ *)
  engine_setup_error : option Exn;
  (* str(v) for a float, a list or a dict *)
  str_of_other : json -> str
}.

Definition placeholder_key : str := lit "your-gemini-api-key-here".

(** [not api_key or api_key == 'your-gemini-api-key-here'] *)
Definition unusable_key (api_key : option str) : bool :=
  negb (nonempty api_key) || str_eqb (text_of api_key) placeholder_key.

(** [BaseAgent.__init__] *)
Definition BaseAgent_init (H : Host) : outcome unit :=
  if unusable_key (gemini_api_key H)
  then Raise (mkExn ValueError (lit "Missing API key"))
  else Ok tt.

(** [ResumeGeneratorAgent.__init__]; the agent is kept as the
    [latex_template] it loaded. *)
Definition ResumeGeneratorAgent_init (H : Host) : outcome str :=
  seq_outcome (BaseAgent_init H) (fun _ => template_file H).

(** The message of the [ValueError] of [RAGEngine.__init__]; its first
    character is U+274C. *)
Definition no_valid_key_message : str :=
  [10060%N] ++ lit " ERROR: No valid API key found!
Please add your Gemini API key to the .env file
Get free key from: https://makersuite.google.com/app/apikey".

(** [RAGEngine.__init__]: the [vector_store] of the new engine. *)
Definition RAGEngine_init (api_key : option str) (H : Host)
  : outcome (option VectorStore) :=
  let api_key := if nonempty api_key then api_key else gemini_api_key H in
  if unusable_key api_key
  then Raise (mkExn ValueError no_valid_key_message)
  else match engine_setup_error H with
       | Some e => Raise e
       | None => Ok None
       end.

(** The globals [_rag_engine] (set or not) and [_rag_agent] (the agent, as
    its [traditional_agent]). *)
Record Globals := mkGlobals {
  rag_engine_set : bool;
  rag_agent : option (option str)
}.

(** [get_rag_engine] *)
Definition get_rag_engine (H : Host) (g : Globals) : outcome unit * Globals :=
  if rag_engine_set g then (Ok tt, g)
  else match RAGEngine_init None H with
       | Ok _ => (Ok tt, mkGlobals true (rag_agent g))
       | Raise e => (Raise e, g)
       end.

(** [RAGResumeAgent.__init__]: the [traditional_agent] of the new agent. *)
Definition RAGResumeAgent_init (H : Host) (g : Globals)
  : outcome (option str) * Globals :=
  match get_rag_engine H g with
  | (Raise e, g') => (Raise e, g')
  | (Ok _, g') =>
      (Ok match ResumeGeneratorAgent_init H with
          | Ok latex_template => Some latex_template
          | Raise _ => None
          end, g')
  end.

(** [get_rag_agent]: the agent, or [None]. *)
Definition get_rag_agent (H : Host) (g : Globals)
  : option (option str) * Globals :=
  match rag_agent g with
  | Some agent => (Some agent, g)
  | None =>
      match RAGResumeAgent_init H g with
      | (Ok agent, g') => (Some agent, mkGlobals (rag_engine_set g') (Some agent))
      | (Raise _, g') => (None, g')
      end
  end.

(* ================================================================== *)
(** ** The other methods of the RAG resume agent *)

(** [with open(path, 'r') as f: f.read()] *)
Definition read_file (path : str) : M str :=
  fun st =>
    match assoc path (files st) with
    | Some content => (Ok content, st)
    | None =>
        (Raise (mkExn ExternalError
                  (lit "[Errno 2] No such file or directory: '" ++ path ++ lit "'")),
         st)
    end.

(** [[f(x) for x in items]] *)
Fixpoint for_each {A B} (f : A -> M B) (items : list A) : M (list B) :=
  match items with
  | [] => ret []
  | a :: rest =>
      b <- f a ;;
      bs <- for_each f rest ;;
      ret (b :: bs)
  end.

Module RagAgent.

Section Agent.

Variable X : Externals.

(** [self.traditional_agent]: [None], or the generator agent (as its
    [latex_template]). *)
Variable traditional_agent : option str.

(** The dict returned by [analyze_and_ingest]. *)
Record Ingestion := mkIngestion {
  resume_analysis : option json;
  job_analysis : option json;
  rag_ingestion : IngestResult;
  ai_suggestions : list str;
  status : str
}.

(** The [if self.traditional_agent] block of [analyze_and_ingest]: what
    [resume_analysis] and [job_analysis] hold after it. An exception leaves
    the assignments made before it. *)
Definition traditional_analysis (resume_text : str)
    (job_description : option str) : M (option json * option json) :=
  match traditional_agent with
  | None => ret (None, None)
  | Some _ =>
      try_except
        (resume_analysis <- analyze_resume X resume_text ;;
         try_except
           (job_analysis <-
              (if nonempty job_description
               then
                 j <- analyze_job_description X (text_of job_description) ;;
                 ret (Some j)
               else ret None) ;;
            ret (Some resume_analysis, job_analysis))
           (fun _ => ret (Some resume_analysis, None)))
        (fun _ => ret (None, None))
  end.

(** [RAGResumeAgent.analyze_and_ingest] *)
Definition analyze_and_ingest (resume_text : str) (job_description : option str)
    (user_id : str) : M Ingestion :=
  analyses <- traditional_analysis resume_text job_description ;;
  rag_result <- ingest_documents X resume_text job_description user_id ;;
  suggestions <- get_suggestions X resume_text job_description ;;
  ret (mkIngestion (fst analyses) (snd analyses) rag_result suggestions
         (lit "ready_for_tailoring")).

(** [RAGResumeAgent.tailor_with_instruction] *)
Definition tailor_with_instruction (instruction user_id : str) : M GenResult :=
  generate_tailored_content X instruction user_id None.

(** The dict returned by [generate_complete_resume]. *)
Inductive CompleteResume :=
| Unavailable (error status : str)
| Generated (latex_resume : str) (strategy job_analysis : json)
            (rag_modifications : list GenResult) (status : str).

(** [self.traditional_agent.create_tailoring_strategy(...)]: no class of
    the agent hierarchy defines this method, so the attribute lookup raises. *)
Definition create_tailoring_strategy (resume_data job_analysis : json) : M json :=
  raise (mkExn AttributeError
           (lit "'ResumeGeneratorAgent' object has no attribute 'create_tailoring_strategy'")).

(** [RAGResumeAgent.generate_complete_resume] *)
Definition generate_complete_resume (resume_data : json)
    (job_description user_id : str) (custom_instructions : option (list str))
    : M CompleteResume :=
  match traditional_agent with
  | None =>
      ret (Unavailable
             (lit "Traditional agent not available. LaTeX generation requires resume_template.tex")
             (lit "use_rag_only"))
  | Some latex_template =>
      job_analysis <- analyze_job_description X job_description ;;
      strategy <- create_tailoring_strategy resume_data job_analysis ;;
      rag_modifications <-
        match custom_instructions with
        | Some (_ :: _ as instructions) =>
            for_each
              (fun instruction =>
                 generate_tailored_content X instruction user_id None)
              instructions
        | _ => ret []
        end ;;
      latex_resume <-
        generate_tailored_resume X latex_template resume_data strategy
          job_analysis ;;
      ret (Generated latex_resume strategy job_analysis rag_modifications
             (lit "generated"))
  end.

(** [RAGResumeAgent.get_improvement_suggestions] *)
Definition get_improvement_suggestions (resume_text : str)
    (job_description : option str) : M (list str) :=
  get_suggestions X resume_text job_description.

(** [RAGResumeAgent.chat] *)
Definition chat (message user_id : str) : M str :=
  result <- generate_tailored_content X message user_id None ;;
  match result with
  | GenOk tailored_content _ _ => ret tailored_content
  | GenFail error _ => ret (lit "Error: " ++ error)
  end.

End Agent.

End RagAgent.

(* ================================================================== *)
(** ** The API functions of [tests/main.py] *)

Module Main.

Section Api.

Variable X : Externals.
Variable H : Host.

(** [f"{v}"] *)
Definition format_value (v : json) : str :=
  match v with
  | JStr s => s
  | JInt z => str_of_Z z
  | JNull => lit "None"
  | JBool true => lit "True"
  | JBool false => lit "False"
  | _ => str_of_other H v
  end.

(** [output_filename.replace('.tex', '_analysis.json')] *)
Definition analysis_file_of (output_filename : str) : str :=
  replace (lit ".tex") (lit "_analysis.json") output_filename.

(** The dict returned by [generate_tailored_resume]; the failure dict has
    [None], [None] and [0] in the other keys. *)
Inductive TailorResult :=
| TailorOk (output_file analysis_file : str) (match_score : json) (message : str)
| TailorFailed (message : str).

(** [generate_tailored_resume] of [tests/main.py] *)
Definition generate_tailored_resume
    (job_description resume_text output_filename : str) : M TailorResult :=
  try_except
    (agent <- lift (ResumeGeneratorAgent_init H) ;;
     output_path <-
       run_complete_pipeline X agent job_description resume_text
         output_filename ;;
     let analysis_file := analysis_file_of output_filename in
     content <- read_file analysis_file ;;
     analysis <- lift (json_loads X content) ;;
     strategy <- lift (dict_get analysis (lit "strategy") (JObj [])) ;;
     match_score <- lift (dict_get strategy (lit "overall_match_score") (JInt 0)) ;;
     ret (TailorOk output_filename analysis_file match_score
            (lit "Resume generated successfully with "
             ++ format_value match_score ++ lit "/100 match score")))
    (fun e => ret (TailorFailed (lit "Error: " ++ exn_msg e))).

(** The dict returned by [analyze_job_and_resume]. *)
Inductive AnalysisResult :=
| AnalysisOk (job_analysis resume_data strategy match_score : json)
             (message : str)
| AnalysisFailed (message : str).

(** [analyze_job_and_resume] *)
Definition analyze_job_and_resume (job_description resume_text : str)
    : M AnalysisResult :=
  try_except
    (agent <- lift (ResumeGeneratorAgent_init H) ;;
     analysis <- run_complete_analysis X job_description resume_text ;;
     match_score <-
       lift (dict_get (strategy analysis) (lit "overall_match_score") (JInt 0)) ;;
     ret (AnalysisOk (job_analysis analysis) (resume_data analysis)
            (strategy analysis) match_score
            (lit "Analysis completed successfully")))
    (fun e => ret (AnalysisFailed (lit "Error: " ++ exn_msg e))).

End Api.

End Main.

(* ================================================================== *)
(** ** The file helpers of [backend/server.py] *)

Module Server.

Definition dot : char := 46%N.

(** [ALLOWED_EXTENSIONS] *)
Definition ALLOWED_EXTENSIONS : list str := [lit "pdf"; lit "docx"].

Definition in_set (s : str) (set : list str) : bool := existsb (str_eqb s) set.

(** [s.split(sep, 1)] when [sep] occurs: the text before and after the
    first [sep]. *)
Fixpoint break_at (sep : char) (s : str) : option (str * str) :=
  match s with
  | [] => None
  | c :: s' =>
      if N.eqb c sep then Some ([], s')
      else match break_at sep s' with
           | Some (a, b) => Some (c :: a, b)
           | None => None
           end
  end.

(** [s.rsplit(sep, 1)] *)
Definition rsplit1 (sep : char) (s : str) : list str :=
  match break_at sep (rev s) with
  | None => [s]
  | Some (a, b) => [rev b; rev a]
  end.

Inductive ServerExn :=
| IndexError                       (* list index out of range *)
| UnsupportedFileType (ext : str)  (* ValueError(f"Unsupported file type: {ext}") *)
| ParserError (e : Exn).           (* raised by pypdf, python-docx or open *)

Section Files.

(** [s.lower()] on a string that is not pure ASCII. *)
Variable unicode_lower : str -> str.
(** The page texts pypdf extracts, the paragraph texts python-docx reads. *)
Variable pdf_pages : str -> outcome (list str).
Variable docx_paragraphs : str -> outcome (list str).

(** [s.lower()] *)
Definition lower (s : str) : str :=
  if forallb (fun c => c <? 128)%N s
  then map (fun c => if ((65 <=? c) && (c <=? 90))%N then (c + 32)%N else c) s
  else unicode_lower s.

(** [l[1]] *)
Definition item1 (l : list str) : ServerExn + str :=
  match nth_error l 1 with
  | Some s => inr s
  | None => inl IndexError
  end.

(** [allowed_file] *)
Definition allowed_file (filename : str) : ServerExn + bool :=
  if mem_char filename dot
  then match item1 (rsplit1 dot filename) with
       | inr after => inr (in_set (lower after) ALLOWED_EXTENSIONS)
       | inl e => inl e
       end
  else inr false.

(** [FileParser.parse_pdf] *)
Definition parse_pdf (file_path : str) : ServerExn + str :=
  match pdf_pages file_path with
  | Ok text => inr (join [nl] text)
  | Raise e => inl (ParserError e)
  end.

(** [FileParser.parse_docx] *)
Definition parse_docx (file_path : str) : ServerExn + str :=
  match docx_paragraphs file_path with
  | Ok paragraphs => inr (join [nl] paragraphs)
  | Raise e => inl (ParserError e)
  end.

(** [FileParser.parse_file] *)
Definition parse_file (file_path : str) : ServerExn + str :=
  match item1 (rsplit1 dot file_path) with
  | inl e => inl e
  | inr after =>
      let ext := lower after in
      if str_eqb ext (lit "pdf") then parse_pdf file_path
      else if str_eqb ext (lit "docx") then parse_docx file_path
      else inl (UnsupportedFileType ext)
  end.

End Files.

End Server.

(* ================================================================== *)
(** ** Stubbed collaborators, for running the methods on concrete inputs *)

Module Stub.

Definition no_error {A} : list Event -> A -> option Exn := fun _ _ => None.

(** A model that answers every prompt with [text]. *)
Definition model_says (text : str) : list Event -> str -> outcome str :=
  fun _ _ => Ok text.

(** A model that fails every call. *)
Definition model_down : list Event -> str -> outcome str :=
  fun _ _ => Raise (mkExn ExternalError (lit "quota exceeded")).

(** A model that answers its n-th call (counted from the calls made so far)
    with the n-th canned text, and fails afterwards. *)
Definition model_script (answers : list str) : list Event -> str -> outcome str :=
  fun history _ =>
    match nth_error answers (length history) with
    | Some text => Ok text
    | None => Raise (mkExn ExternalError (lit "no canned answer"))
    end.

Definition job_json : json :=
  JObj [ (lit "required_skills", JArr [JStr (lit "Python"); JStr (lit "AWS")]);
         (lit "experience_level", JStr (lit "Senior")) ].

Definition resume_json : json :=
  JObj [ (lit "name", JStr (lit "Jane Doe"));
         (lit "skills", JArr [JStr (lit "Python")]);
         (lit "contact_info", JObj [(lit "email", JNull)]) ].

Definition strategy_json : json :=
  JObj [ (lit "overall_match_score", JInt 62);
         (lit "gaps",
          JArr [JObj [ (lit "missing", JStr (lit "AWS"));
                       (lit "severity", JStr (lit "moderate")) ]]) ].

(** A parser that knows three canned texts. *)
Definition canned_loads (text : str) : outcome json :=
  if str_eqb text (lit "JOB") then Ok job_json
  else if str_eqb text (lit "RESUME") then Ok resume_json
  else if str_eqb text (lit "STRATEGY") then Ok strategy_json
  else Raise (mkExn ValueError (lit "Expecting value: line 1 column 1 (char 0)")).

Definition externals (model : list Event -> str -> outcome str)
    (save_err : list Event -> str -> option Exn) : Externals :=
  mkExternals
    model
    canned_loads
    (fun _ => lit "{}")
    (fun docs => Ok docs)
    no_error
    save_err
    no_error
    (fun _ vs _ k => Ok (firstn (Z.to_nat k) vs))
    (fun _ vs _ _ k => Ok (lit "tailored bullets", firstn (Z.to_nat k) vs))
    (fun a b => a ++ lit "/" ++ b)
    (lit "agents")
    no_error
    (fun _ => false).

Definition disk_full : list Event -> str -> option Exn :=
  fun _ _ => Some (mkExn ExternalError (lit "No space left on device")).

Definition empty_state : State := mkState None [] [] [].

(** An engine whose index is resident and holds one resume chunk. *)
Definition resident_state : State :=
  mkState (Some [resume_document (lit "Jane Doe; 5 years Python, no AWS") (lit "u1")])
    [] [] [].

(** No index in memory, one saved on disk for user [u1]. *)
Definition on_disk_state : State :=
  mkState None
    [ (lit "./vector_stores/user_u1",
       [resume_document (lit "Jane Doe; 5 years Python, no AWS") (lit "u1")]) ]
    [] [].

(** A text of [n] letters between blanks: its trimmed length is [n]. *)
Definition padded (n : nat) : str := lit "  " ++ repeat 97%N n ++ [nl; 32%N].

Definition job_text : str := lit "Senior ML Engineer; requires Python, AWS".
Definition resume_text : str := lit "Jane Doe; 5 years Python, no AWS".

Definition plain_template : str := lit "\documentclass{article}".
Definition one_slot_template : str :=
  lit "\begin{document}" ++ placeholder ++ lit "\end{document}".
Definition two_slot_template : str := placeholder ++ lit "|" ++ placeholder.

(** The externals used in the examples: a model that says [text], nothing
    else failing. *)
Definition says (text : str) : Externals := externals (model_says text) no_error.

(** The canned three-stage run of the analysis. *)
Definition scripted : Externals :=
  externals (model_script [lit "JOB"; lit "RESUME"; lit "STRATEGY"]) no_error.

(** The job answer is canned, the resume answer is not JSON. *)
Definition scripted_bad_resume : Externals :=
  externals (model_script [lit "JOB"; lit "Sorry, I cannot help with that."]) no_error.

(** Externals with a chosen model, parser, serializer and file-open check;
    nothing else fails. *)
Definition custom (model : list Event -> str -> outcome str)
    (loads : str -> outcome json) (dumps : json -> str)
    (open_err : list Event -> str -> option Exn) : Externals :=
  mkExternals model loads dumps (fun docs => Ok docs) no_error no_error no_error
    (fun _ vs _ k => Ok (firstn (Z.to_nat k) vs))
    (fun _ vs _ _ k => Ok (lit "tailored bullets", firstn (Z.to_nat k) vs))
    (fun a b => if startswith (lit "/") b then b else a ++ lit "/" ++ b)
    (lit "agents")
    open_err
    (fun _ => false).

Definition canned_analysis : Analysis :=
  mkAnalysis job_json resume_json strategy_json.

(** A serializer and parser that agree on the canned analysis. *)
Definition snapshot_dumps (v : json) : str := lit "ANALYSIS".
Definition snapshot_loads (text : str) : outcome json :=
  if str_eqb text (lit "ANALYSIS") then Ok (analysis_dict canned_analysis)
  else canned_loads text.

Definition four_answers : list str :=
  [lit "JOB"; lit "RESUME"; lit "STRATEGY"; lit "\section{Summary}"].

(** The canned four-stage run of the pipeline. *)
Definition scripted4 : Externals :=
  custom (model_script four_answers) snapshot_loads snapshot_dumps no_error.

(** Opening a file for writing fails once [n] calls have been logged. *)
Definition open_fails_from (n : nat) : list Event -> str -> option Exn :=
  fun history _ =>
    if n <=? length history
    then Some (mkExn ExternalError (lit "[Errno 13] Permission denied"))
    else None.

(** The pipeline run in which the second file cannot be opened. *)
Definition scripted4_snapshot_denied : Externals :=
  custom (model_script four_answers) snapshot_loads snapshot_dumps
    (open_fails_from 5).



Definition host_ok : Host :=
  mkHost (Some (lit "AIza-test-key")) (Ok one_slot_template) None
    (fun _ => lit "?").

Definition host_no_key : Host :=
  mkHost None (Ok one_slot_template) None (fun _ => lit "?").

Definition host_placeholder_key : Host :=
  mkHost (Some placeholder_key) (Ok one_slot_template) None (fun _ => lit "?").

Definition host_no_template : Host :=
  mkHost (Some (lit "AIza-test-key"))
    (Raise (mkExn ExternalError
              (lit "[Errno 2] No such file or directory: 'resume_template.tex'")))
    None (fun _ => lit "?").

Definition no_globals : Globals := mkGlobals false None.

End Stub.

(* ================================================================== *)
(** ** Auxiliary notions used to state the properties *)

(** What a stage returns for a given outcome of its model call: the parsed
    record if the response parses and its summary can be printed. *)
Definition stage_outcome (X : Externals) (report : json -> outcome unit)
    (response : outcome str) : outcome json :=
  seq_outcome response (fun text =>
  seq_outcome (json_loads X (strip_json_fences text)) (fun v =>
  seq_outcome (report v) (fun _ => Ok v))).

(** The backtick and the fence marker the stages remove. *)
Definition backtick : char := 96%N.
Definition fence : str := lit "```".

(** [RAGEngine()] can be built on this host. *)
Definition engine_builds (H : Host) : bool :=
  negb (unusable_key (gemini_api_key H))
  && match engine_setup_error H with None => true | Some _ => false end.

(** The outcome is a value. *)
Definition okb {A} (o : outcome A) : bool :=
  match o with Ok _ => true | Raise _ => false end.

(** [len] accepts the value. *)
Definition sized (v : json) : bool :=
  match v with
  | JStr _ | JArr _ | JObj _ => true
  | _ => false
  end.

(** The value is a dict in which [key] is absent or holds a sized value. *)
Definition field_sized (v : json) (key : string) : bool :=
  match v with
  | JObj kv =>
      match assoc (lit key) kv with
      | Some x => sized x
      | None => true
      end
  | _ => false
  end.





Definition strategy_shape (v : json) : bool :=
  field_sized v "strong_matches" && field_sized v "partial_matches"
  && field_sized v "gaps" && field_sized v "skills_to_emphasize"
  && field_sized v "keywords_to_add".

Definition is_load (e : Event) : bool :=
  match e with EvLoadLocal _ => true | _ => false end.

Definition is_write (e : Event) : bool :=
  match e with EvWrite _ _ => true | _ => false end.

(** The suggestion parser as its description reads: a line is cut to its
    text after the list marker, a list-like line is kept when that text is
    longer than ten characters, and any line is kept by the fallback when
    its trimmed text is longer than ten characters. *)
Definition marker_stripped (line : str) : str :=
  strip (lstrip_chars marker_chars (strip line)).

Definition kept_numbered (X : Externals) (line : str) : bool :=
  list_like X (strip line) && (10 <? length (marker_stripped line)).

Definition kept_line (line : str) : bool := 10 <? length (strip line).

Definition suggestions_of_lines (X : Externals) (raw_lines : list str)
    : list str :=
  if existsb (kept_numbered X) raw_lines
  then firstn 5 (map marker_stripped (filter (kept_numbered X) raw_lines))
  else firstn 5 (map strip (filter kept_line raw_lines)).

(* ================================================================== *)
(** * Properties *)

(** ** Python string operations *)

Example replace_ex1 :
  replace (lit "ab") (lit "X") (lit "cababab_ab") = lit "cXXX_X".
Proof. reflexivity. Qed.

Example replace_ex2 :
  replace (lit "aa") (lit "b") (lit "aaaaa") = lit "bba".
Proof. reflexivity. Qed.

Example replace_ex3 :
  replace [] (lit "-") (lit "abc") = lit "-a-b-c-".
Proof. reflexivity. Qed.

Example split_ex : split_on nl (lit "a" ++ [nl] ++ [nl] ++ lit "bc") = [lit "a"; []; lit "bc"].
Proof. reflexivity. Qed.

Example strip_ex : strip (lit "  a b " ++ [nl]) = lit "a b".
Proof. reflexivity. Qed.

Example str_of_Z_ex : str_of_Z 5 = lit "5" /\ str_of_Z (-12) = lit "-12" /\ str_of_Z 0 = lit "0".
Proof. repeat split; reflexivity. Qed.

Lemma startswith_nil_r (old : str) : old <> [] -> startswith old [] = false.
Proof. destruct old; [congruence | reflexivity]. Qed.

Lemma find_cons (old : str) (c : char) (s : str) :
  find old (c :: s) =
  if startswith old (c :: s) then Some 0 else option_map S (find old s).
Proof. reflexivity. Qed.

Lemma replace_from_skip (old new : str) (k : nat) (s : str) :
  replace_from old new k s = replace_from old new 0 (skipn k s).
Proof.
  revert k; induction s as [|c s IH]; intros k.
  - now destruct k.
  - destruct k as [|k]; [reflexivity|].
    simpl skipn. cbn [replace_from]. apply IH.
Qed.

(** No occurrence: [replace] gives the string back. *)
Lemma replace_from_absent (old new s : str) :
  find old s = None -> replace_from old new 0 s = s.
Proof.
  induction s as [|c s IH]; intros H; [reflexivity|].
  rewrite find_cons in H. cbn [replace_from].
  destruct (startswith old (c :: s)); [discriminate|].
  destruct (find old s); [discriminate|].
  now rewrite IH.
Qed.

(** Leftmost occurrence at [i]: the text before it is kept, [new] is put in
    its place and replacement goes on after it. *)
Lemma replace_from_first (old new s : str) (i : nat) :
  old <> [] ->
  find old s = Some i ->
  replace_from old new 0 s =
  firstn i s ++ new ++ replace_from old new 0 (skipn (i + length old) s).
Proof.
  intros Hold; revert i; induction s as [|c s IH]; intros i H.
  - cbn in H. now rewrite (startswith_nil_r Hold) in H.
  - rewrite find_cons in H. cbn [replace_from].
    destruct (startswith old (c :: s)) eqn:E.
    + injection H as <-. cbn [firstn app Nat.add].
      rewrite replace_from_skip. f_equal.
      destruct old as [|o old']; [congruence|].
      cbn [length Nat.sub skipn]. now rewrite ?Nat.sub_0_r.
    + destruct (find old s) as [j|]; [|discriminate].
      injection H as <-. cbn [firstn app Nat.add skipn].
      now rewrite (IH j eq_refl).
Qed.

Lemma startswith_split (old s : str) :
  startswith old s = true -> s = old ++ skipn (length old) s.
Proof.
  revert s; induction old as [|o old IH]; intros s H; [reflexivity|].
  destruct s as [|c s]; [discriminate|].
  cbn in H. apply andb_prop in H as [Hc Hs].
  apply N.eqb_eq in Hc. subst c. cbn. f_equal. now apply IH.
Qed.

Lemma startswith_firstn (old s : str) (n : nat) :
  startswith old (firstn n s) = true -> startswith old s = true.
Proof.
  revert s n; induction old as [|o old IH]; intros s n H; [reflexivity|].
  destruct n as [|n], s as [|c s]; cbn in H; try discriminate.
  apply andb_prop in H as [Hc H]. cbn. rewrite Hc. cbn. now apply IH with n.
Qed.

(** The leftmost occurrence cuts the string in three. *)
Lemma find_split (old s : str) (i : nat) :
  find old s = Some i ->
  s = firstn i s ++ old ++ skipn (i + length old) s.
Proof.
  revert i; induction s as [|c s IH]; intros i H.
  - cbn in H. destruct (startswith old []) eqn:E; [|discriminate].
    injection H as <-. exact (startswith_split _ _ E).
  - rewrite find_cons in H. destruct (startswith old (c :: s)) eqn:E.
    + injection H as <-. exact (startswith_split _ _ E).
    + destruct (find old s) as [j|] eqn:F; [|discriminate].
      injection H as <-. cbn [firstn Nat.add skipn].
      rewrite <- app_comm_cons. f_equal. now apply IH.
Qed.

(** Nothing occurs before the leftmost occurrence. *)
Lemma find_firstn_absent (old s : str) (i : nat) :
  old <> [] -> find old s = Some i -> find old (firstn i s) = None.
Proof.
  intros Hold; revert i; induction s as [|c s IH]; intros i H.
  - rewrite firstn_nil. cbn. now rewrite startswith_nil_r.
  - rewrite find_cons in H. destruct (startswith old (c :: s)) eqn:E.
    + injection H as <-. cbn. now rewrite startswith_nil_r.
    + destruct (find old s) as [j|]; [|discriminate].
      injection H as <-. cbn [firstn]. rewrite find_cons.
      destruct (startswith old (c :: firstn j s)) eqn:E2.
      * change (c :: firstn j s) with (firstn (S j) (c :: s)) in E2.
        apply startswith_firstn in E2. congruence.
      * now rewrite (IH j eq_refl).
Qed.

Lemma join_cons (sep p : str) (parts : list str) :
  parts <> [] -> join sep (p :: parts) = p ++ sep ++ join sep parts.
Proof. destruct parts; [congruence | reflexivity]. Qed.

(** [s.replace(old, new)] is [new.join(s.split(old))]: the string is cut at
    its occurrences of [old] into pieces free of [old], and the result is
    the same pieces with [new] between them. *)
Lemma replace_from_parts (old new : str) :
  old <> [] ->
  forall s, exists parts,
    parts <> []
    /\ s = join old parts
    /\ replace_from old new 0 s = join new parts
    /\ Forall (fun p => find old p = None) parts.
Proof.
  intros Hold s. remember (length s) as n eqn:Hn. revert s Hn.
  induction n as [n IH] using lt_wf_ind. intros s Hn.
  destruct (find old s) as [i|] eqn:F.
  - pose proof (find_split _ _ F) as Hs.
    assert (Hshorter : length (skipn (i + length old) s) < n).
    { assert (0 < length old) by (destruct old; [congruence | cbn; lia]).
      apply (f_equal (@length char)) in Hs. rewrite !length_app in Hs. lia. }
    destruct (IH _ Hshorter _ eq_refl) as (parts & Hne & Hjoin & Hrep & Hall).
    exists (firstn i s :: parts). split; [discriminate|].
    rewrite !join_cons by assumption. split; [|split].
    + now rewrite <- Hjoin.
    + rewrite replace_from_first with (i := i) by assumption.
      now rewrite Hrep.
    + constructor; [now apply find_firstn_absent | assumption].
  - exists [s]. split; [discriminate|]. split; [reflexivity|]. split.
    + now apply replace_from_absent.
    + now constructor.
Qed.

Lemma placeholder_nonempty : placeholder <> [].
Proof. discriminate. Qed.

Lemma merge_template_absent (latex_template latex_content : str) :
  find placeholder latex_template = None ->
  merge_template latex_template latex_content = latex_template.
Proof. intros H. now apply replace_from_absent. Qed.

Lemma merge_template_single (latex_template latex_content : str) (i : nat) :
  find placeholder latex_template = Some i ->
  find placeholder (skipn (i + length placeholder) latex_template) = None ->
  merge_template latex_template latex_content =
  firstn i latex_template ++ latex_content
    ++ skipn (i + length placeholder) latex_template.
Proof.
  intros H1 H2. unfold merge_template.
  change (replace placeholder latex_content latex_template)
    with (replace_from placeholder latex_content 0 latex_template).
  rewrite replace_from_first with (i := i) by (exact placeholder_nonempty || exact H1).
  now rewrite replace_from_absent with (s := skipn _ _).
Qed.

(* ------------------------------------------------------------------ *)
(** ** Proof steps shared by the method lemmas *)

(** Unfold the monad and the external actions, leaving the source-level
    data (prompts, documents) folded. *)
Ltac run_method :=
  cbv beta iota zeta delta
    [bind ret raise lift try_except get_store put_store
     model_generate faiss_from_documents faiss_save_local path_exists
     faiss_load_local faiss_similarity_search faiss_add_documents
     run_qa_chain write_file].

Ltac state_fields :=
  cbn [fst snd log record set_store set_persisted set_files
       vector_store persisted files].

(** Close a goal [exists rest, log st' = log st ++ rest /\ ...] once the
    final state is explicit. *)
Ltac appended_log :=
  state_fields; rewrite <- ?app_assoc;
  first [ exists []; rewrite app_nil_r; repeat split; (reflexivity || assumption)
        | eexists; repeat split; (reflexivity || assumption) ].

(* ------------------------------------------------------------------ *)
(** ** The pipeline stages *)

Section PipelineFacts.

Variable X : Externals.

Lemma analyze_job_description_run (job_description : str) (st : State) :
  analyze_job_description X job_description st =
  (stage_outcome X job_report
     (generate_content X (log st) (job_prompt job_description)),
   record (EvGenerate (job_prompt job_description)) st).
Proof.
  unfold analyze_job_description, try_except, bind, model_generate, lift, ret,
    raise, stage_outcome, seq_outcome.
  destruct (generate_content X (log st) (job_prompt job_description)); [|reflexivity].
  destruct (json_loads X (strip_json_fences a)); [|reflexivity].
  destruct (job_report a0); reflexivity.
Qed.

Lemma analyze_resume_run (resume_text : str) (st : State) :
  analyze_resume X resume_text st =
  (stage_outcome X resume_report
     (generate_content X (log st) (resume_prompt resume_text)),
   record (EvGenerate (resume_prompt resume_text)) st).
Proof.
  unfold analyze_resume, try_except, bind, model_generate, lift, ret,
    raise, stage_outcome, seq_outcome.
  destruct (generate_content X (log st) (resume_prompt resume_text)); [|reflexivity].
  destruct (json_loads X (strip_json_fences a)); [|reflexivity].
  destruct (resume_report a0); reflexivity.
Qed.

Lemma create_matching_strategy_run (j r : json) (st : State) :
  create_matching_strategy X j r st =
  (stage_outcome X strategy_report
     (generate_content X (log st) (strategy_prompt X j r)),
   record (EvGenerate (strategy_prompt X j r)) st).
Proof.
  unfold create_matching_strategy, try_except, bind, model_generate, lift, ret,
    raise, stage_outcome, seq_outcome.
  destruct (generate_content X (log st) (strategy_prompt X j r)); [|reflexivity].
  destruct (json_loads X (strip_json_fences a)); [|reflexivity].
  destruct (strategy_report a0); reflexivity.
Qed.

Lemma generate_tailored_resume_run (latex_template : str) (r s j : json) (st : State) :
  generate_tailored_resume X latex_template r s j st =
  (match generate_content X (log st) (render_prompt X r s j) with
   | Ok text => Ok (merge_template latex_template (strip_latex_fences text))
   | Raise e => Raise e
   end,
   record (EvGenerate (render_prompt X r s j)) st).
Proof.
  unfold generate_tailored_resume, try_except, bind, model_generate, ret, raise.
  destruct (generate_content X (log st) (render_prompt X r s j)); reflexivity.
Qed.

(** C2 (amended). A template without the placeholder is returned as it is
    whenever the model call succeeds: no render error is reported for it.
    The render fails, with the model's exception and no document, exactly
    when the model call fails. *)
Theorem generate_tailored_resume_without_placeholder
    (latex_template : str) (r s j : json) (st : State) :
  find placeholder latex_template = None ->
  fst (generate_tailored_resume X latex_template r s j st) =
  match generate_content X (log st) (render_prompt X r s j) with
  | Ok _ => Ok latex_template
  | Raise e => Raise e
  end.
Proof.
  intros Habsent. rewrite generate_tailored_resume_run. cbn [fst].
  destruct (generate_content X (log st) (render_prompt X r s j)); [|reflexivity].
  now rewrite merge_template_absent.
Qed.

(** C6 (amended). When the model call succeeds the rendered output is the
    template with every occurrence of the placeholder replaced by the
    response cleaned of fence markers and surrounding whitespace: the
    template is cut at the placeholders into pieces that come out unchanged
    and in order, with the cleaned response between them. The output is a
    function of the template and the response, so a second render that gets
    the same response returns the same document. When the placeholder occurs
    once (leftmost at [i], none after it), the output is the text before it,
    the cleaned response, and the text after it, both unchanged. *)
Theorem generate_tailored_resume_merge
    (latex_template : str) (r s j : json) (st : State) (text : str) :
  generate_content X (log st) (render_prompt X r s j) = Ok text ->
  fst (generate_tailored_resume X latex_template r s j st) =
    Ok (replace placeholder (strip_latex_fences text) latex_template)
  /\ (exists parts,
        parts <> []
        /\ Forall (fun p => find placeholder p = None) parts
        /\ latex_template = join placeholder parts
        /\ fst (generate_tailored_resume X latex_template r s j st) =
           Ok (join (strip_latex_fences text) parts))
  /\ (forall st',
        generate_content X (log st') (render_prompt X r s j) = Ok text ->
        fst (generate_tailored_resume X latex_template r s j st') =
        fst (generate_tailored_resume X latex_template r s j st))
  /\ (forall i,
        find placeholder latex_template = Some i ->
        find placeholder (skipn (i + length placeholder) latex_template) = None ->
        fst (generate_tailored_resume X latex_template r s j st) =
        Ok (firstn i latex_template ++ strip_latex_fences text
              ++ skipn (i + length placeholder) latex_template)).
Proof.
  intros Hmodel. rewrite generate_tailored_resume_run, Hmodel. cbn [fst].
  split; [reflexivity|]. split; [|split].
  - destruct (replace_from_parts (strip_latex_fences text) placeholder_nonempty
                latex_template) as (parts & Hne & Htpl & Hout & Hfree).
    exists parts. repeat split; try assumption.
    f_equal. exact Hout.
  - intros st' Hmodel'. now rewrite generate_tailored_resume_run, Hmodel'.
  - intros i Hfirst Hrest. f_equal. now apply merge_template_single.
Qed.

End PipelineFacts.

Lemma generate_tailored_resume_without_placeholder_witness :
  find placeholder Stub.plain_template = None
  /\ fst (generate_tailored_resume (Stub.says (lit "\section{Summary}"))
            Stub.plain_template JNull JNull JNull Stub.empty_state)
     = Ok Stub.plain_template.
Proof.
  split; [reflexivity|].
  exact (@generate_tailored_resume_without_placeholder
           (Stub.says (lit "\section{Summary}")) Stub.plain_template
           JNull JNull JNull Stub.empty_state eq_refl).
Defined.

(** C2, as stated, fails: on a template without the placeholder and a
    successful model response the method returns the template unchanged
    instead of failing. *)
Lemma template_without_placeholder_is_returned :
  find placeholder Stub.plain_template = None
  /\ generate_content (Stub.says (lit "\section{Summary}")) []
       (render_prompt (Stub.says (lit "\section{Summary}")) JNull JNull JNull)
     = Ok (lit "\section{Summary}")
  /\ fst (generate_tailored_resume (Stub.says (lit "\section{Summary}"))
            Stub.plain_template JNull JNull JNull Stub.empty_state)
     = Ok Stub.plain_template
  /\ forall e,
       fst (generate_tailored_resume (Stub.says (lit "\section{Summary}"))
              Stub.plain_template JNull JNull JNull Stub.empty_state)
       <> Raise e.
Proof.
  repeat split; try reflexivity.
  intros e. vm_compute. discriminate.
Qed.

Lemma generate_tailored_resume_merge_witness :
  fst (generate_tailored_resume (Stub.says (lit "```latex \section{Summary} ```"))
         Stub.one_slot_template JNull JNull JNull Stub.empty_state)
  = Ok (lit "\begin{document}\section{Summary}\end{document}").
Proof.
  exact (proj2 (proj2 (proj2
    (@generate_tailored_resume_merge
       (Stub.says (lit "```latex \section{Summary} ```"))
       Stub.one_slot_template JNull JNull JNull Stub.empty_state
       (lit "```latex \section{Summary} ```") eq_refl)))
    16 eq_refl eq_refl).
Defined.

(** C6, as stated, fails: with the placeholder written twice the content is
    merged at both places, so the output is not the template with the
    content at one placeholder position. *)
Lemma two_placeholders_are_both_replaced :
  fst (generate_tailored_resume (Stub.says (lit "x"))
         Stub.two_slot_template JNull JNull JNull Stub.empty_state)
  = Ok (lit "x|x")
  /\ ~ (exists pre post : str,
          Stub.two_slot_template = pre ++ placeholder ++ post
          /\ lit "x|x" = pre ++ lit "x" ++ post).
Proof.
  split; [reflexivity|].
  intros (pre & post & Htpl & Hout).
  apply (f_equal (@length char)) in Htpl, Hout.
  rewrite !length_app in Htpl, Hout.
  cbn in Htpl, Hout. lia.
Qed.

Section OrchestratorFacts.

Variable X : Externals.

(** C3. If the job analysis returned and the resume analysis then raises,
    [run_complete_analysis] and [run_complete_pipeline] raise the same
    exception: no strategy and no document is produced. Only the two
    extractor calls reached the model, and no file was written. *)
Theorem resume_failure_aborts_pipeline
    (latex_template job_description resume_text output_filename : str)
    (st st1 st2 : State) (j : json) (e : Exn) :
  analyze_job_description X job_description st = (Ok j, st1) ->
  analyze_resume X resume_text st1 = (Raise e, st2) ->
  run_complete_analysis X job_description resume_text st = (Raise e, st2)
  /\ run_complete_pipeline X latex_template job_description resume_text
       output_filename st = (Raise e, st2)
  /\ files st2 = files st
  /\ log st2 = log st ++ [ EvGenerate (job_prompt job_description);
                           EvGenerate (resume_prompt resume_text) ]
  /\ filter is_write (log st2) = filter is_write (log st).
Proof.
  intros Hjob Hresume.
  assert (Hrun : run_complete_analysis X job_description resume_text st
                 = (Raise e, st2)).
  { unfold run_complete_analysis, bind. now rewrite Hjob, Hresume. }
  rewrite analyze_job_description_run in Hjob.
  rewrite analyze_resume_run in Hresume.
  injection Hjob as _ <-. injection Hresume as _ <-.
  assert (Hlog : log (record (EvGenerate (resume_prompt resume_text))
                        (record (EvGenerate (job_prompt job_description)) st))
                 = log st ++ [ EvGenerate (job_prompt job_description);
                               EvGenerate (resume_prompt resume_text) ]).
  { cbn [record log]. now rewrite <- app_assoc. }
  repeat split.
  - exact Hrun.
  - unfold run_complete_pipeline, bind at 1. now rewrite Hrun.
  - exact Hlog.
  - rewrite Hlog, filter_app. cbn [filter is_write]. apply app_nil_r.
Qed.

(** C5. When the three stage calls return, [run_complete_analysis] returns
    the record of exactly their outputs; the model was called three times,
    for the job prompt, then the resume prompt, then the strategy prompt
    built from the first two outputs; and the strategy is the value parsed
    from the third response. *)
Theorem run_complete_analysis_passes_stage_outputs
    (job_description resume_text : str) (st st1 st2 st3 : State) (j r s : json) :
  analyze_job_description X job_description st = (Ok j, st1) ->
  analyze_resume X resume_text st1 = (Ok r, st2) ->
  create_matching_strategy X j r st2 = (Ok s, st3) ->
  run_complete_analysis X job_description resume_text st
    = (Ok (mkAnalysis j r s), st3)
  /\ log st3 = log st ++ [ EvGenerate (job_prompt job_description);
                           EvGenerate (resume_prompt resume_text);
                           EvGenerate (strategy_prompt X j r) ]
  /\ (exists text,
        generate_content X (log st2) (strategy_prompt X j r) = Ok text
        /\ json_loads X (strip_json_fences text) = Ok s).
Proof.
  intros Hjob Hresume Hstrategy.
  split; [|split].
  - unfold run_complete_analysis, bind.
    now rewrite Hjob, Hresume, Hstrategy.
  - rewrite analyze_job_description_run in Hjob.
    rewrite analyze_resume_run in Hresume.
    rewrite create_matching_strategy_run in Hstrategy.
    injection Hjob as _ <-. injection Hresume as _ <-.
    injection Hstrategy as _ <-.
    cbn [record log]. now rewrite <- !app_assoc.
  - rewrite create_matching_strategy_run in Hstrategy.
    injection Hstrategy as Hs _.
    unfold stage_outcome, seq_outcome in Hs.
    destruct (generate_content X (log st2) (strategy_prompt X j r))
      as [text|]; [|discriminate].
    exists text. split; [reflexivity|].
    destruct (json_loads X (strip_json_fences text)) as [v|]; [|discriminate].
    destruct (strategy_report v); [|discriminate].
    now injection Hs as ->.
Qed.

End OrchestratorFacts.

Lemma resume_failure_aborts_pipeline_witness :
  fst (run_complete_pipeline Stub.scripted_bad_resume Stub.one_slot_template
         Stub.job_text Stub.resume_text (lit "tailored_resume.tex")
         Stub.empty_state)
  = Raise (mkExn ValueError (lit "Expecting value: line 1 column 1 (char 0)"))
  /\ files (snd (run_complete_pipeline Stub.scripted_bad_resume
                   Stub.one_slot_template Stub.job_text Stub.resume_text
                   (lit "tailored_resume.tex") Stub.empty_state)) = [].
Proof.
  pose proof
    (@resume_failure_aborts_pipeline Stub.scripted_bad_resume
       Stub.one_slot_template Stub.job_text Stub.resume_text
       (lit "tailored_resume.tex") Stub.empty_state
       (snd (analyze_job_description Stub.scripted_bad_resume Stub.job_text
               Stub.empty_state))
       (snd (analyze_resume Stub.scripted_bad_resume Stub.resume_text
               (snd (analyze_job_description Stub.scripted_bad_resume
                       Stub.job_text Stub.empty_state))))
       Stub.job_json
       (mkExn ValueError (lit "Expecting value: line 1 column 1 (char 0)"))
       eq_refl eq_refl) as (_ & Hpipe & Hfiles & _).
  rewrite Hpipe. split; [reflexivity | exact Hfiles].
Defined.

Lemma run_complete_analysis_passes_stage_outputs_witness :
  fst (run_complete_analysis Stub.scripted Stub.job_text Stub.resume_text
         Stub.empty_state)
  = Ok (mkAnalysis Stub.job_json Stub.resume_json Stub.strategy_json)
  /\ dict_get Stub.strategy_json (lit "overall_match_score") JNull = Ok (JInt 62).
Proof.
  split; [|reflexivity].
  rewrite (proj1
    (@run_complete_analysis_passes_stage_outputs Stub.scripted
       Stub.job_text Stub.resume_text Stub.empty_state
       (snd (analyze_job_description Stub.scripted Stub.job_text Stub.empty_state))
       (snd (analyze_resume Stub.scripted Stub.resume_text
               (snd (analyze_job_description Stub.scripted Stub.job_text
                       Stub.empty_state))))
       (snd (run_complete_analysis Stub.scripted Stub.job_text Stub.resume_text
               Stub.empty_state))
       Stub.job_json Stub.resume_json Stub.strategy_json
       eq_refl eq_refl eq_refl)).
  reflexivity.
Defined.

(* ------------------------------------------------------------------ *)
(** ** The RAG engine *)

Section EngineFacts.

Variable X : Externals.

Lemma retrieve_context_run (query : str) (k : Z) (st : State) :
  retrieve_context X query k st =
  match vector_store st with
  | None =>
      (Raise (mkExn ValueError
                (lit "Vector store not initialized. Call ingest_documents first.")),
       st)
  | Some vs =>
      (similarity_search X (log st) vs query k,
       record (EvSimilaritySearch query k) st)
  end.
Proof.
  unfold retrieve_context, bind, get_store, raise, faiss_similarity_search.
  destruct (vector_store st); reflexivity.
Qed.

(** With a resident index and a non-empty override, everything after the
    load step is the chain call on the instruction. *)
Lemma generate_from_store_override (instruction c : str) (st : State) (vs : VectorStore) :
  vector_store st = Some vs ->
  c <> [] ->
  generate_from_store X instruction (Some c) st =
  (match retrieval_qa X (log st) vs prompt_template instruction 5 with
   | Ok result =>
       Ok (GenOk (fst result)
             (map (fun doc => upto 200 (page_content doc)) (snd result))
             instruction)
   | Raise e => Raise e
   end,
   record (EvRetrievalQA prompt_template instruction 5) st).
Proof.
  intros Hstore Hc. destruct c as [|c0 c]; [congruence|].
  unfold generate_from_store, bind, get_store, run_qa_chain, ret, nonempty.
  rewrite Hstore.
  destruct (retrieval_qa X (log st) vs prompt_template instruction 5);
    reflexivity.
Qed.

(** C1 (what the code does). With an index resident and any non-empty
    [context_override], the result is that of the RetrievalQA chain run over
    the store's own retriever (k = 5) on the instruction: the override does
    not occur in the call or in the result. *)
Theorem generate_tailored_content_override_unused
    (instruction user_id c : str) (st : State) (vs : VectorStore) :
  vector_store st = Some vs ->
  c <> [] ->
  generate_tailored_content X instruction user_id (Some c) st =
  (Ok match retrieval_qa X (log st) vs prompt_template instruction 5 with
      | Ok result =>
          GenOk (fst result)
            (map (fun doc => upto 200 (page_content doc)) (snd result))
            instruction
      | Raise e =>
          GenFail (exn_msg e) (lit "Failed to generate tailored content")
      end,
   record (EvRetrievalQA prompt_template instruction 5) st).
Proof.
  intros Hstore Hc.
  unfold generate_tailored_content, try_except, bind at 1, get_store.
  rewrite Hstore.
  rewrite (generate_from_store_override instruction (c := c) st Hstore Hc).
  destruct (retrieval_qa X (log st) vs prompt_template instruction 5);
    reflexivity.
Qed.

(** No index in memory and none on disk: the call returns the not-found
    record before looking at [context_override]. *)
Lemma generate_tailored_content_not_found
    (instruction user_id : str) (context_override : option str) (st : State) :
  vector_store st = None ->
  assoc (store_path_of X user_id) (persisted st) = None ->
  generate_tailored_content X instruction user_id context_override st =
  (Ok (GenFail (lit "Vector store not found. Please analyze documents first.")
         (lit "Call /api/rag/analyze first to ingest documents")), st).
Proof.
  intros Hstore Hdisk.
  unfold generate_tailored_content, try_except, bind, get_store, path_exists.
  rewrite Hstore, Hdisk. reflexivity.
Qed.

End EngineFacts.

Lemma generate_tailored_content_override_unused_witness :
  generate_tailored_content (Stub.says (lit "unused"))
    (lit "emphasize Python") (lit "u1") (Some (lit "MY OWN CONTEXT"))
    Stub.resident_state
  = (Ok (GenOk (lit "tailored bullets")
           [lit "Jane Doe; 5 years Python, no AWS"] (lit "emphasize Python")),
     record (EvRetrievalQA prompt_template (lit "emphasize Python") 5)
       Stub.resident_state).
Proof.
  exact (@generate_tailored_content_override_unused (Stub.says (lit "unused"))
           (lit "emphasize Python") (lit "u1") (lit "MY OWN CONTEXT")
           Stub.resident_state _ eq_refl ltac:(discriminate)).
Defined.

Section IndexFacts.

Variable X : Externals.

Lemma ingest_documents_run (resume_text : str) (job_description : option str)
    (user_id : str) (st : State) :
  ingest_documents X resume_text job_description user_id st =
  let failed (e : Exn) :=
    Ok (IngestFail (exn_msg e)
          (lit "Failed to ingest documents. Check GEMINI_API_KEY.")) in
  match split_documents X
          (ingest_documents_list resume_text job_description user_id) with
  | Raise e => (failed e, st)
  | Ok chunks =>
      let st1 := record (EvFromDocuments chunks) st in
      match embed_error X (log st) chunks with
      | Some e => (failed e, st1)
      | None =>
          let st2 := set_store (Some chunks) st1 in
          let path := store_path_of X user_id in
          match save_error X (log st2) path with
          | Some e => (failed e, record (EvSaveLocal path) st2)
          | None =>
              (Ok (IngestOk (length chunks) (meaningful job_description) path
                     (lit "Resume ingested successfully! "
                      ++ (if meaningful job_description
                          then lit "Job description also added."
                          else lit "Add a job description for better tailoring."))),
               record (EvSaveLocal path)
                 (set_persisted ((path, chunks) :: persisted st2) st2))
          end
      end
  end.
Proof.
  unfold ingest_documents, try_except, bind, lift, faiss_from_documents,
    put_store, faiss_save_local, ret.
  destruct (split_documents X _) as [chunks|e]; [|reflexivity].
  destruct (embed_error X (log st) chunks) as [e|]; [reflexivity|].
  cbv zeta.
  destruct (save_error X _ _) as [e|]; reflexivity.
Qed.

Lemma learn_from_feedback_run
    (user_id instruction generated_content feedback : str) (rating : Z)
    (st : State) :
  learn_from_feedback X user_id instruction generated_content feedback rating st =
  match vector_store st with
  | None => (Ok (LearnNotInitialized (lit "Vector store not initialized")), st)
  | Some vs =>
      match split_documents X
              [feedback_document user_id instruction generated_content
                 feedback rating] with
      | Raise e => (Ok (LearnError (exn_msg e)), st)
      | Ok chunks =>
          match embed_error X (log st) chunks with
          | Some e =>
              (Ok (LearnError (exn_msg e)), record (EvAddDocuments chunks) st)
          | None =>
              (Ok (LearnStored (lit "Feedback stored for continuous learning")),
               record (EvAddDocuments chunks)
                 (set_store (Some (vs ++ chunks)) st))
          end
      end
  end.
Proof.
  unfold learn_from_feedback, try_except, bind, get_store, lift,
    faiss_add_documents, ret.
  destruct (vector_store st) as [vs|] eqn:Hstore; [|reflexivity].
  destruct (split_documents X _) as [chunks|e]; [|reflexivity].
  rewrite Hstore.
  destruct (embed_error X (log st) chunks) as [e|]; reflexivity.
Qed.

(** The part of [generate_tailored_content] after the load step keeps the
    index and only adds search and chain calls to the log. *)
Lemma generate_from_store_frame (instruction : str)
    (context_override : option str) (st : State) :
  exists rest,
    log (snd (generate_from_store X instruction context_override st))
      = log st ++ rest
    /\ filter is_load rest = []
    /\ vector_store (snd (generate_from_store X instruction context_override st))
       = vector_store st.
Proof.
  unfold generate_from_store, retrieve_context. run_method.
  destruct (nonempty context_override);
    destruct (vector_store st) as [vs|] eqn:Hstore; state_fields;
    rewrite ?Hstore.
  - destruct (retrieval_qa X (log st) vs prompt_template instruction 5);
      appended_log.
  - appended_log.
  - destruct (similarity_search X (log st) vs instruction 5) as [docs|e];
      state_fields; rewrite ?Hstore;
      [destruct (retrieval_qa X _ vs prompt_template instruction 5)|];
      appended_log.
  - appended_log.
Qed.

(** [generate_tailored_content] always returns a record. *)
Lemma generate_tailored_content_returns (instruction user_id : str)
    (context_override : option str) (st : State) :
  exists r st',
    generate_tailored_content X instruction user_id context_override st
    = (Ok r, st').
Proof.
  unfold generate_tailored_content, try_except.
  match goal with
  | |- context [match ?m st with _ => _ end] => destruct (m st) as [[r|e] st']
  end; unfold ret; eauto.
Qed.

(** The disk-load fallback of [generate_tailored_content]. *)
Lemma generate_tailored_content_loads (instruction user_id : str)
    (context_override : option str) (st : State) (vs : VectorStore) :
  vector_store st = None ->
  assoc (store_path_of X user_id) (persisted st) = Some vs ->
  load_error X (log st) (store_path_of X user_id) = None ->
  exists rest,
    log (snd (generate_tailored_content X instruction user_id context_override st))
      = log st ++ EvLoadLocal (store_path_of X user_id) :: rest
    /\ vector_store
         (snd (generate_tailored_content X instruction user_id context_override st))
       = Some vs.
Proof.
  intros Hstore Hdisk Hload.
  set (st1 := set_store (Some vs)
                (record (EvLoadLocal (store_path_of X user_id)) st)).
  assert (Hrun :
    generate_tailored_content X instruction user_id context_override st =
    match generate_from_store X instruction context_override st1 with
    | (Ok r, st2) => (Ok r, st2)
    | (Raise e, st2) =>
        (Ok (GenFail (exn_msg e) (lit "Failed to generate tailored content")), st2)
    end).
  { unfold generate_tailored_content. run_method.
    rewrite Hstore, Hdisk. cbv beta iota. rewrite Hload, Hdisk. reflexivity. }
  rewrite Hrun.
  destruct (generate_from_store_frame instruction context_override st1)
    as (rest & Hlog & _ & Hkeep).
  exists rest.
  destruct (generate_from_store X instruction context_override st1)
    as [[r|e] st2]; cbn [snd] in *;
    rewrite Hlog, Hkeep; subst st1; state_fields;
    rewrite <- app_assoc; auto.
Qed.

Lemma ingest_documents_log (resume_text : str) (job_description : option str)
    (user_id : str) (st : State) :
  exists rest,
    log (snd (ingest_documents X resume_text job_description user_id st))
      = log st ++ rest
    /\ filter is_load rest = [].
Proof.
  rewrite ingest_documents_run. cbv zeta.
  destruct (split_documents X _) as [chunks|e]; [|appended_log].
  destruct (embed_error X (log st) chunks) as [e|]; [appended_log|].
  destruct (save_error X _ _) as [e|]; appended_log.
Qed.

Lemma learn_from_feedback_log
    (user_id instruction generated_content feedback : str) (rating : Z)
    (st : State) :
  exists rest,
    log (snd (learn_from_feedback X user_id instruction generated_content
                feedback rating st))
      = log st ++ rest
    /\ filter is_load rest = [].
Proof.
  rewrite learn_from_feedback_run.
  destruct (vector_store st) as [vs|]; [|appended_log].
  destruct (split_documents X _) as [chunks|e]; [|appended_log].
  destruct (embed_error X (log st) chunks) as [e|]; appended_log.
Qed.

Lemma get_suggestions_log (resume_text : str) (job_description : option str)
    (st : State) :
  exists rest,
    log (snd (get_suggestions X resume_text job_description st))
      = log st ++ rest
    /\ filter is_load rest = [].
Proof.
  unfold get_suggestions. run_method.
  destruct (generate_content X (log st) _); appended_log.
Qed.

End IndexFacts.

Section IndexLifecycle.

Variable X : Externals.

Lemma no_load_appended (before after rest : list Event) :
  after = before ++ rest ->
  filter is_load rest = [] ->
  filter is_load after = filter is_load before.
Proof.
  intros -> Hrest. rewrite filter_app, Hrest. apply app_nil_r.
Qed.

(** C9. With no index in memory [retrieve_context] raises and leaves the
    state as it was, whatever is saved on disk: it makes no load call. The
    load from disk happens in [generate_tailored_content], which brings a
    saved index into memory; ingestion, feedback learning and suggestion
    generation make no load call either. *)
Theorem retrieve_context_never_loads (query : str) (k : Z) (st : State) :
  vector_store st = None ->
  retrieve_context X query k st =
    (Raise (mkExn ValueError
              (lit "Vector store not initialized. Call ingest_documents first.")),
     st)
  /\ (forall instruction user_id context_override vs,
        assoc (store_path_of X user_id) (persisted st) = Some vs ->
        load_error X (log st) (store_path_of X user_id) = None ->
        exists rest,
          log (snd (generate_tailored_content X instruction user_id
                      context_override st))
            = log st ++ EvLoadLocal (store_path_of X user_id) :: rest
          /\ vector_store (snd (generate_tailored_content X instruction user_id
                                  context_override st))
             = Some vs)
  /\ (forall resume_text job_description user_id,
        filter is_load
          (log (snd (ingest_documents X resume_text job_description user_id st)))
        = filter is_load (log st))
  /\ (forall user_id instruction generated_content feedback rating,
        filter is_load
          (log (snd (learn_from_feedback X user_id instruction generated_content
                       feedback rating st)))
        = filter is_load (log st))
  /\ (forall resume_text job_description,
        filter is_load
          (log (snd (get_suggestions X resume_text job_description st)))
        = filter is_load (log st)).
Proof.
  intros Hstore. repeat split.
  - rewrite retrieve_context_run, Hstore. reflexivity.
  - intros instruction user_id context_override vs Hdisk Hload.
    now apply generate_tailored_content_loads.
  - intros resume_text job_description user_id.
    destruct (ingest_documents_log X resume_text job_description user_id st)
      as (rest & Hlog & Hrest).
    eapply no_load_appended; eassumption.
  - intros user_id instruction generated_content feedback rating.
    destruct (learn_from_feedback_log X user_id instruction generated_content
                feedback rating st) as (rest & Hlog & Hrest).
    eapply no_load_appended; eassumption.
  - intros resume_text job_description.
    destruct (get_suggestions_log X resume_text job_description st)
      as (rest & Hlog & Hrest).
    eapply no_load_appended; eassumption.
Qed.

(** C10. When the chunks are split and embedded and saving the new index
    then fails, [ingest_documents] returns the failure record while
    [vector_store] already holds the new index; nothing was saved. *)
Theorem ingest_documents_replaces_index_before_saving
    (resume_text : str) (job_description : option str) (user_id : str)
    (st : State) (chunks : list Document) (e : Exn) :
  split_documents X (ingest_documents_list resume_text job_description user_id)
    = Ok chunks ->
  embed_error X (log st) chunks = None ->
  save_error X (log st ++ [EvFromDocuments chunks]) (store_path_of X user_id)
    = Some e ->
  exists st',
    ingest_documents X resume_text job_description user_id st =
      (Ok (IngestFail (exn_msg e)
             (lit "Failed to ingest documents. Check GEMINI_API_KEY.")), st')
    /\ vector_store st' = Some chunks
    /\ log st' = log st ++ [ EvFromDocuments chunks;
                             EvSaveLocal (store_path_of X user_id) ].
Proof.
  intros Hsplit Hembed Hsave.
  rewrite ingest_documents_run, Hsplit, Hembed. cbv zeta.
  state_fields. rewrite Hsave.
  eexists. split; [reflexivity|]. state_fields.
  rewrite <- app_assoc. auto.
Qed.

(** C8. [interactive_refinement] never raises: it runs the learning half,
    which always returns a record, then the generation half on the
    instruction extended with the feedback and the fixed directive, which
    always returns a record whatever the learning half returned, and returns
    both. Without an index the learning half reports that it is not
    initialised and changes nothing. With an index it packs instruction,
    generated content, feedback and rating into one block of text tagged as
    feedback of that user with that rating, and splits it: the chunks are
    appended to the index in memory, and to nothing else; a failure of the
    splitting or of the embedding is reported in the record and leaves the
    index as it was. *)
Theorem interactive_refinement_attempts_both_halves
    (user_id feedback : str) (rating : Z)
    (previous_instruction previous_content : str) (st : State) :
  exists learn_result refined st1 st2,
    learn_from_feedback X user_id previous_instruction previous_content
      feedback rating st = (Ok learn_result, st1)
    /\ generate_tailored_content X
         (previous_instruction ++ lit "

User Feedback: " ++ feedback ++ lit "

Please improve based on this feedback.") user_id None st1 = (Ok refined, st2)
    /\ interactive_refinement X user_id feedback rating previous_instruction
         previous_content st
       = (Ok (mkRefinement learn_result refined true), st2)
    /\ (vector_store st = None ->
        learn_result = LearnNotInitialized (lit "Vector store not initialized")
        /\ st1 = st)
    /\ (forall vs,
          vector_store st = Some vs ->
          match
            split_documents X
              [mkDocument
                 (lit "
INSTRUCTION: " ++ previous_instruction ++ lit "
GENERATED: " ++ previous_content ++ lit "
USER FEEDBACK: " ++ feedback ++ lit "
RATING: " ++ str_of_Z rating ++ lit "/5
                ")
                 [ (lit "type", MStr (lit "feedback"));
                   (lit "user_id", MStr user_id);
                   (lit "rating", MInt rating) ]]
          with
          | Raise e => learn_result = LearnError (exn_msg e) /\ st1 = st
          | Ok chunks =>
              match embed_error X (log st) chunks with
              | Some e =>
                  learn_result = LearnError (exn_msg e)
                  /\ st1 = mkState (Some vs) (persisted st) (files st)
                             (log st ++ [EvAddDocuments chunks])
              | None =>
                  learn_result =
                    LearnStored (lit "Feedback stored for continuous learning")
                  /\ st1 = mkState (Some (vs ++ chunks)) (persisted st)
                             (files st) (log st ++ [EvAddDocuments chunks])
              end
          end).
Proof.
  assert (Hlearn : exists learn_result st1,
    learn_from_feedback X user_id previous_instruction previous_content
      feedback rating st = (Ok learn_result, st1)).
  { rewrite learn_from_feedback_run.
    destruct (vector_store st); [|eauto].
    destruct (split_documents X _) as [chunks|e]; [|eauto].
    destruct (embed_error X (log st) chunks); eauto. }
  destruct Hlearn as (learn_result & st1 & Hlearn).
  destruct (generate_tailored_content_returns X
              (refined_instruction_of previous_instruction feedback)
              user_id None st1) as (refined & st2 & Hgen).
  exists learn_result, refined, st1, st2.
  split; [exact Hlearn|]. split; [exact Hgen|]. split.
  - unfold interactive_refinement, bind. rewrite Hlearn, Hgen. reflexivity.
  - rewrite learn_from_feedback_run in Hlearn. split.
    + intros Hstore. rewrite Hstore in Hlearn.
      injection Hlearn as <- <-. auto.
    + intros vs Hstore. rewrite Hstore in Hlearn.
      change (feedback_document user_id previous_instruction previous_content
                feedback rating)
        with (mkDocument
                 (lit "
INSTRUCTION: " ++ previous_instruction ++ lit "
GENERATED: " ++ previous_content ++ lit "
USER FEEDBACK: " ++ feedback ++ lit "
RATING: " ++ str_of_Z rating ++ lit "/5
                ")
                 [ (lit "type", MStr (lit "feedback"));
                   (lit "user_id", MStr user_id);
                   (lit "rating", MInt rating) ]) in Hlearn.
      destruct (split_documents X _) as [chunks|e].
      * destruct (embed_error X (log st) chunks) as [e|];
          injection Hlearn as <- <-; (split; [reflexivity|]);
          unfold record, set_store; state_fields; now rewrite ?Hstore.
      * injection Hlearn as <- <-. auto.
Qed.

End IndexLifecycle.

Lemma retrieve_context_never_loads_witness :
  assoc (lit "./vector_stores/user_u1") (persisted Stub.on_disk_state) <> None
  /\ retrieve_context (Stub.says (lit "unused")) (lit "Python") 5
       Stub.on_disk_state
     = (Raise (mkExn ValueError
                 (lit "Vector store not initialized. Call ingest_documents first.")),
        Stub.on_disk_state).
Proof.
  split; [discriminate|].
  exact (proj1 (@retrieve_context_never_loads (Stub.says (lit "unused"))
                  (lit "Python") 5 Stub.on_disk_state eq_refl)).
Defined.

Lemma ingest_documents_replaces_index_before_saving_witness :
  exists st',
    ingest_documents (Stub.externals Stub.model_down Stub.disk_full)
      Stub.resume_text None (lit "u1") Stub.empty_state
    = (Ok (IngestFail (lit "No space left on device")
             (lit "Failed to ingest documents. Check GEMINI_API_KEY.")), st')
    /\ vector_store st' = Some [resume_document Stub.resume_text (lit "u1")]
    /\ log st' = [ EvFromDocuments [resume_document Stub.resume_text (lit "u1")];
                   EvSaveLocal (lit "./vector_stores/user_u1") ].
Proof.
  exact (@ingest_documents_replaces_index_before_saving
           (Stub.externals Stub.model_down Stub.disk_full)
           Stub.resume_text None (lit "u1") Stub.empty_state
           [resume_document Stub.resume_text (lit "u1")]
           (mkExn ExternalError (lit "No space left on device"))
           eq_refl eq_refl eq_refl).
Defined.

(* ------------------------------------------------------------------ *)
(** ** Suggestions and the job-text threshold *)

Lemma Forall_firstn {A} (P : A -> Prop) (n : nat) (l : list A) :
  Forall P l -> Forall P (firstn n l).
Proof.
  intros H; revert n; induction H as [|x l Hx _ IH]; intros [|n]; cbn;
    constructor; auto.
Qed.

(** The threshold test, on a text that is given. *)
Lemma meaningful_spec (jd : str) :
  meaningful (Some jd) = (50 <? length (strip jd)).
Proof.
  unfold meaningful. destruct jd as [|c jd]; [reflexivity|].
  reflexivity.
Qed.

Section SuggestionFacts.

Variable X : Externals.

Lemma numbered_entry_long (line : str) :
  Forall (fun s => 10 < length s) (numbered_entry X line).
Proof.
  unfold numbered_entry.
  destruct (list_like X (strip line)); [|constructor].
  destruct (negb _ && (10 <? _)) eqn:E; constructor; [|constructor].
  apply andb_prop in E. now apply Nat.ltb_lt.
Qed.

Lemma raw_entries_long (raw_lines : list str) :
  Forall (fun s => 10 < length s) (raw_entries raw_lines).
Proof.
  unfold raw_entries. apply Forall_flat_map, Forall_forall. intros s _.
  destruct (negb _ && (10 <? _)) eqn:E; constructor; [|constructor].
  apply andb_prop in E. now apply Nat.ltb_lt.
Qed.

Lemma parse_suggestions_bounded (response_text : str) :
  length (parse_suggestions X response_text) <= 5
  /\ Forall (fun s => 10 < length s) (parse_suggestions X response_text).
Proof.
  unfold parse_suggestions. split.
  - rewrite length_firstn. lia.
  - apply Forall_firstn.
    destruct (flat_map (numbered_entry X) _) eqn:E.
    + apply raw_entries_long.
    + rewrite <- E. apply Forall_flat_map, Forall_forall. intros line _.
      apply numbered_entry_long.
Qed.

Lemma long_is_nonempty (s : str) :
  negb (Nat.eqb (length s) 0) && (10 <? length s) = (10 <? length s).
Proof.
  destruct (10 <? length s) eqn:E; [|apply andb_false_r].
  apply Nat.ltb_lt in E. destruct s; [cbn in E; lia|reflexivity].
Qed.

Lemma numbered_entries_spec (raw_lines : list str) :
  flat_map (numbered_entry X) raw_lines
  = map marker_stripped (filter (kept_numbered X) raw_lines).
Proof.
  induction raw_lines as [|line raw_lines IH]; [reflexivity|].
  cbn [flat_map filter]. rewrite IH.
  unfold numbered_entry, kept_numbered. cbv zeta.
  fold (marker_stripped line). rewrite long_is_nonempty.
  destruct (list_like X (strip line)); [|reflexivity].
  cbn [andb]. now destruct (10 <? length (marker_stripped line)).
Qed.

Lemma raw_entries_spec (raw_lines : list str) :
  raw_entries raw_lines = map strip (filter kept_line raw_lines).
Proof.
  unfold raw_entries.
  induction raw_lines as [|line raw_lines IH]; [reflexivity|].
  cbn [flat_map filter]. rewrite IH, long_is_nonempty. unfold kept_line.
  now destruct (10 <? length (strip line)).
Qed.

Lemma filter_nil_existsb {A} (f : A -> bool) (l : list A) :
  existsb f l = match filter f l with [] => false | _ :: _ => true end.
Proof.
  induction l as [|a l IH]; [reflexivity|].
  cbn [existsb filter]. now destruct (f a).
Qed.

(** The parser of the source and the parser of the description agree. *)
Lemma parse_suggestions_spec (response_text : str) :
  parse_suggestions X response_text
  = suggestions_of_lines X (split_on nl (strip response_text)).
Proof.
  unfold parse_suggestions, suggestions_of_lines. cbv zeta.
  rewrite numbered_entries_spec, raw_entries_spec, filter_nil_existsb.
  now destruct (filter (kept_numbered X) _).
Qed.

Lemma no_list_like_kept (raw_lines : list str) :
  Forall (fun line => list_like X (strip line) = false) raw_lines ->
  existsb (kept_numbered X) raw_lines = false.
Proof.
  induction 1 as [|line raw_lines Hline _ IH]; [reflexivity|].
  cbn [existsb]. rewrite IH. unfold kept_numbered. now rewrite Hline.
Qed.

(** C7 (amended). [get_suggestions] always returns a list, whatever the
    model call does: at most five entries, each longer than ten characters
    as it is returned. When the model call raises, the list is the one error
    message. Otherwise the response is trimmed and cut into lines: if some
    list-like line has more than ten characters left after its marker is
    stripped, the entries are the first five such marker-stripped texts;
    if there is none, be it that no line is list-like or that every
    list-like line came out too short, the entries are the first five
    trimmed lines longer than ten characters, markers included. In
    particular, when no line is list-like the entries are those trimmed
    lines. *)
Theorem get_suggestions_bounded (resume_text : str)
    (job_description : option str) (st : State) :
  exists suggestions st',
    get_suggestions X resume_text job_description st = (Ok suggestions, st')
    /\ length suggestions <= 5
    /\ Forall (fun s => 10 < length s) suggestions
    /\ (forall e,
          generate_content X (log st)
            (suggestions_prompt resume_text job_description) = Raise e ->
          suggestions =
            [lit "Unable to generate suggestions: " ++ exn_msg e
             ++ lit ". Please check your GEMINI_API_KEY."])
    /\ (forall response_text,
          generate_content X (log st)
            (suggestions_prompt resume_text job_description) = Ok response_text ->
          suggestions =
            (if existsb (kept_numbered X) (split_on nl (strip response_text))
             then firstn 5 (map marker_stripped
                              (filter (kept_numbered X)
                                 (split_on nl (strip response_text))))
             else firstn 5 (map strip
                              (filter kept_line
                                 (split_on nl (strip response_text)))))
          /\ (Forall (fun line => list_like X (strip line) = false)
                (split_on nl (strip response_text)) ->
              suggestions =
                firstn 5 (map strip
                            (filter kept_line
                               (split_on nl (strip response_text)))))).
Proof.
  unfold get_suggestions. run_method.
  destruct (generate_content X (log st) _) as [text|e].
  - destruct (parse_suggestions_bounded text) as (Hlen & Hlong).
    do 2 eexists. split; [reflexivity|]. split; [exact Hlen|].
    split; [exact Hlong|]. split; [discriminate|].
    intros response_text [= <-]. rewrite parse_suggestions_spec.
    unfold suggestions_of_lines. split; [reflexivity|].
    intros Hplain. now rewrite (no_list_like_kept Hplain).
  - do 2 eexists. split; [reflexivity|]. split; [cbn; lia|]. split.
    + constructor; [|constructor]. rewrite !length_app.
      change (length (lit "Unable to generate suggestions: ")) with 32. lia.
    + split; [now intros e' [= <-]|discriminate].
Qed.

(** C4 (amended). A job text whose trimmed length is at most 50 is left out
    of the ingested documents, ingestion still succeeds with
    [has_job_description] false, and the suggestion prompt is the general
    one; a job text whose trimmed length is above 50 (51 already) is
    ingested as a second document and the suggestion prompt is the
    job-alignment one. Feedback text has no such threshold: with an index
    resident, [learn_from_feedback] stores the feedback block whatever the
    length of the feedback. *)
Theorem job_text_threshold (resume_text jd user_id : str) (st : State) :
  (length (strip jd) <= 50 ->
     ingest_documents_list resume_text (Some jd) user_id
       = [resume_document resume_text user_id]
     /\ (forall chunks,
           split_documents X [resume_document resume_text user_id] = Ok chunks ->
           embed_error X (log st) chunks = None ->
           save_error X (log st ++ [EvFromDocuments chunks])
             (store_path_of X user_id) = None ->
           exists message st',
             ingest_documents X resume_text (Some jd) user_id st =
             (Ok (IngestOk (length chunks) false (store_path_of X user_id)
                    message), st'))
     /\ log (snd (get_suggestions X resume_text (Some jd) st))
        = log st ++ [EvGenerate (general_quality_prompt resume_text)])
  /\ (50 < length (strip jd) ->
     ingest_documents_list resume_text (Some jd) user_id
       = [resume_document resume_text user_id; jd_document jd user_id]
     /\ (forall chunks,
           split_documents X
             [resume_document resume_text user_id; jd_document jd user_id]
             = Ok chunks ->
           embed_error X (log st) chunks = None ->
           save_error X (log st ++ [EvFromDocuments chunks])
             (store_path_of X user_id) = None ->
           exists message st',
             ingest_documents X resume_text (Some jd) user_id st =
             (Ok (IngestOk (length chunks) true (store_path_of X user_id)
                    message), st'))
     /\ log (snd (get_suggestions X resume_text (Some jd) st))
        = log st ++ [EvGenerate (job_alignment_prompt resume_text jd)])
  /\ (forall instruction generated_content feedback rating vs chunks,
        vector_store st = Some vs ->
        split_documents X
          [feedback_document user_id instruction generated_content
             feedback rating] = Ok chunks ->
        embed_error X (log st) chunks = None ->
        exists st',
          learn_from_feedback X user_id instruction generated_content
            feedback rating st
          = (Ok (LearnStored (lit "Feedback stored for continuous learning")), st')
          /\ vector_store st' = Some (vs ++ chunks)).
Proof.
  assert (Hprompt : forall job_description,
    log (snd (get_suggestions X resume_text job_description st))
    = log st ++ [EvGenerate (suggestions_prompt resume_text job_description)]).
  { intros job_description. unfold get_suggestions. run_method.
    destruct (generate_content X (log st) _); reflexivity. }
  split; [|split].
  - intros Hshort.
    assert (Hm : meaningful (Some jd) = false).
    { rewrite meaningful_spec. apply Nat.ltb_ge. exact Hshort. }
    assert (Hdocs : ingest_documents_list resume_text (Some jd) user_id
                    = [resume_document resume_text user_id]).
    { unfold ingest_documents_list. now rewrite Hm. }
    split; [exact Hdocs|]. split.
    + intros chunks Hsplit Hembed Hsave.
      rewrite ingest_documents_run, Hdocs, Hsplit, Hembed. cbv zeta.
      state_fields. rewrite Hsave, Hm. eauto.
    + rewrite Hprompt. unfold suggestions_prompt. now rewrite Hm.
  - intros Hlong.
    assert (Hm : meaningful (Some jd) = true).
    { rewrite meaningful_spec. apply Nat.ltb_lt. exact Hlong. }
    assert (Hdocs : ingest_documents_list resume_text (Some jd) user_id
                    = [resume_document resume_text user_id;
                       jd_document jd user_id]).
    { unfold ingest_documents_list. now rewrite Hm. }
    split; [exact Hdocs|]. split.
    + intros chunks Hsplit Hembed Hsave.
      rewrite ingest_documents_run, Hdocs, Hsplit, Hembed. cbv zeta.
      state_fields. rewrite Hsave, Hm. eauto.
    + rewrite Hprompt. unfold suggestions_prompt. now rewrite Hm.
  - intros instruction generated_content feedback rating vs chunks
      Hstore Hsplit Hembed.
    rewrite learn_from_feedback_run, Hstore, Hsplit, Hembed.
    eexists. split; reflexivity.
Qed.

End SuggestionFacts.

Example parse_numbered_response :
  parse_suggestions (Stub.says [])
    (lit "Here are my suggestions:
1. Quantify the impact of the API work
2) Add AWS to the skills section
- ok
" ++ [bullet] ++ lit " Highlight the leadership of the data team
")
  = [ lit "Quantify the impact of the API work";
      lit "Add AWS to the skills section";
      lit "Highlight the leadership of the data team" ].
Proof. vm_compute. reflexivity. Qed.

Example parse_unnumbered_response :
  parse_suggestions (Stub.says [])
    (lit "Sorry.
Quantify the impact of the API work
   Add AWS to the skills section   
too short
")
  = [ lit "Quantify the impact of the API work";
      lit "Add AWS to the skills section" ].
Proof. vm_compute. reflexivity. Qed.

Lemma get_suggestions_bounded_witness :
  exists st',
    get_suggestions
      (Stub.says (lit "Here are my suggestions:
1. Quantify the impact of the API work
2) Add AWS to the skills section
- ok
" ++ [bullet] ++ lit " Highlight the leadership of the data team
"))
      Stub.resume_text None Stub.empty_state
    = (Ok [ lit "Quantify the impact of the API work";
            lit "Add AWS to the skills section";
            lit "Highlight the leadership of the data team" ], st').
Proof.
  destruct (@get_suggestions_bounded
              (Stub.says (lit "Here are my suggestions:
1. Quantify the impact of the API work
2) Add AWS to the skills section
- ok
" ++ [bullet] ++ lit " Highlight the leadership of the data team
"))
              Stub.resume_text None Stub.empty_state)
    as (suggestions & st' & Hrun & _ & _ & _ & Hparse).
  destruct (Hparse _ eq_refl) as [Hlist _].
  vm_compute in Hlist. subst suggestions.
  exists st'. exact Hrun.
Defined.

(** C7, as stated, fails for a response whose only list-like line is too
    short once its marker is stripped: the fallback returns the line with
    its marker, and what is left of that entry after marker stripping has
    nine characters. *)
Lemma short_numbered_line_is_returned_with_marker :
  fst (get_suggestions (Stub.says (lit "1. too short")) Stub.resume_text None
         Stub.empty_state)
  = Ok [lit "1. too short"]
  /\ list_like (Stub.says (lit "1. too short")) (strip (lit "1. too short"))
     = true
  /\ marker_stripped (lit "1. too short") = lit "too short"
  /\ length (marker_stripped (lit "1. too short")) < 10.
Proof.
  split; [reflexivity|]. split; [reflexivity|]. split; [reflexivity|].
  apply Nat.ltb_lt. reflexivity.
Qed.

Lemma job_text_threshold_witness :
  length (strip (Stub.padded 50)) = 50
  /\ length (strip (Stub.padded 51)) = 51
  /\ ingest_documents_list Stub.resume_text (Some (Stub.padded 50)) (lit "u1")
     = [resume_document Stub.resume_text (lit "u1")]
  /\ ingest_documents_list Stub.resume_text (Some (Stub.padded 51)) (lit "u1")
     = [resume_document Stub.resume_text (lit "u1");
        jd_document (Stub.padded 51) (lit "u1")].
Proof.
  split; [reflexivity|]. split; [reflexivity|]. split.
  - refine (proj1 (proj1 (@job_text_threshold (Stub.says []) Stub.resume_text
                            (Stub.padded 50) (lit "u1") Stub.empty_state) _)).
    apply Nat.leb_le. reflexivity.
  - refine (proj1 (proj1 (proj2 (@job_text_threshold (Stub.says [])
                            Stub.resume_text (Stub.padded 51) (lit "u1")
                            Stub.empty_state)) _)).
    apply Nat.ltb_lt. reflexivity.
Defined.

(** C4, as stated, fails for feedback text: a feedback of two characters is
    packed and added to the resident index like any other. *)
Lemma short_feedback_is_stored :
  length (strip (lit "ok")) <= 50
  /\ fst (learn_from_feedback (Stub.says []) (lit "u1") (lit "emphasize Python")
            (lit "- Built APIs") (lit "ok") 4 Stub.resident_state)
     = Ok (LearnStored (lit "Feedback stored for continuous learning"))
  /\ vector_store
       (snd (learn_from_feedback (Stub.says []) (lit "u1")
               (lit "emphasize Python") (lit "- Built APIs") (lit "ok") 4
               Stub.resident_state))
     = Some [ resume_document Stub.resume_text (lit "u1");
              feedback_document (lit "u1") (lit "emphasize Python")
                (lit "- Built APIs") (lit "ok") 4 ].
Proof.
  split; [apply Nat.leb_le; reflexivity|].
  split; reflexivity.
Qed.

Lemma interactive_refinement_attempts_both_halves_witness :
  interactive_refinement (Stub.says []) (lit "u1") (lit "more numbers") 2
    (lit "emphasize Python") (lit "- Built APIs") Stub.resident_state
  = (Ok (mkRefinement
           (LearnStored (lit "Feedback stored for continuous learning"))
           (GenOk (lit "tailored bullets")
              [ lit "Jane Doe; 5 years Python, no AWS";
                lit "
INSTRUCTION: emphasize Python
GENERATED: - Built APIs
USER FEEDBACK: more numbers
RATING: 2/5
                " ]
              (lit "emphasize Python

User Feedback: more numbers

Please improve based on this feedback."))
           true),
     mkState
       (Some [ resume_document Stub.resume_text (lit "u1");
               mkDocument (lit "
INSTRUCTION: emphasize Python
GENERATED: - Built APIs
USER FEEDBACK: more numbers
RATING: 2/5
                ")
                 [ (lit "type", MStr (lit "feedback"));
                   (lit "user_id", MStr (lit "u1"));
                   (lit "rating", MInt 2) ] ])
       [] []
       [ EvAddDocuments
           [ mkDocument (lit "
INSTRUCTION: emphasize Python
GENERATED: - Built APIs
USER FEEDBACK: more numbers
RATING: 2/5
                ")
               [ (lit "type", MStr (lit "feedback"));
                 (lit "user_id", MStr (lit "u1"));
                 (lit "rating", MInt 2) ] ];
         EvSimilaritySearch (lit "emphasize Python

User Feedback: more numbers

Please improve based on this feedback.") 5;
         EvRetrievalQA prompt_template (lit "emphasize Python

User Feedback: more numbers

Please improve based on this feedback.") 5 ])
  /\ interactive_refinement (Stub.says []) (lit "u1") (lit "more numbers") 2
       (lit "emphasize Python") (lit "- Built APIs") Stub.empty_state
     = (Ok (mkRefinement
              (LearnNotInitialized (lit "Vector store not initialized"))
              (GenFail
                 (lit "Vector store not found. Please analyze documents first.")
                 (lit "Call /api/rag/analyze first to ingest documents"))
              true),
        Stub.empty_state).
Proof.
  split.
  - destruct (@interactive_refinement_attempts_both_halves (Stub.says [])
                (lit "u1") (lit "more numbers") 2 (lit "emphasize Python")
                (lit "- Built APIs") Stub.resident_state)
      as (learn_result & refined & st1 & st2 & _ & Hgen & Hrun & _ & Hsome).
    specialize (Hsome _ eq_refl). vm_compute in Hsome.
    destruct Hsome as [-> ->].
    rewrite Hrun. vm_compute in Hgen. injection Hgen as <- <-. reflexivity.
  - destruct (@interactive_refinement_attempts_both_halves (Stub.says [])
                (lit "u1") (lit "more numbers") 2 (lit "emphasize Python")
                (lit "- Built APIs") Stub.empty_state)
      as (learn_result & refined & st1 & st2 & _ & Hgen & Hrun & Hnone & _).
    destruct (Hnone eq_refl) as [-> ->].
    rewrite Hrun. vm_compute in Hgen. injection Hgen as <- <-. reflexivity.
Defined.

(* ------------------------------------------------------------------ *)
(** ** What the stages let through *)

Lemma okb_seq_const {A B} (o : outcome A) (r : outcome B) :
  okb (seq_outcome o (fun _ => r)) = okb o && okb r.
Proof. now destruct o. Qed.

Lemma okb_len_of_field (v : json) (key : string) :
  okb (len_of_field v key) = field_sized v key.
Proof.
  unfold len_of_field, field_sized, dict_get.
  destruct v; try reflexivity.
  destruct (assoc (lit key) items) as [[]|]; reflexivity.
Qed.





Lemma strategy_report_shape (v : json) :
  okb (strategy_report v) = strategy_shape v.
Proof.
  unfold strategy_report, strategy_shape.
  rewrite !okb_seq_const, !okb_len_of_field.
  destruct v; try reflexivity. cbn [dict_get okb andb].
  now rewrite !andb_true_r, !andb_assoc.
Qed.

Lemma stage_outcome_ok (X : Externals) (report : json -> outcome unit)
    (shape : json -> bool) (response : outcome str) (j : json) :
  (forall v, okb (report v) = shape v) ->
  stage_outcome X report response = Ok j <->
  exists text,
    response = Ok text
    /\ json_loads X (strip_json_fences text) = Ok j
    /\ shape j = true.
Proof.
  intros Hshape. unfold stage_outcome, seq_outcome. split.
  - destruct response as [text|e]; [|discriminate].
    destruct (json_loads X (strip_json_fences text)) as [v|e] eqn:Hparse;
      [|discriminate].
    specialize (Hshape v). destruct (report v); [|discriminate].
    intros [= <-]. exists text. split; [reflexivity|].
    split; [exact Hparse|]. symmetry. exact Hshape.
  - intros (text & -> & -> & Hj). specialize (Hshape j).
    rewrite Hj in Hshape. destruct (report j); [reflexivity | discriminate].
Qed.

Section StageContracts.

Variable X : Externals.





End StageContracts.


(* ------------------------------------------------------------------ *)
(** ** The files written by the pipeline *)

Lemma str_eqb_refl (s : str) : str_eqb s s = true.
Proof. induction s as [|c s IH]; cbn; [reflexivity|]. now rewrite N.eqb_refl. Qed.

Lemma assoc_head {V} (k : str) (v : V) (rest : list (str * V)) :
  assoc k ((k, v) :: rest) = Some v.
Proof. cbn. now rewrite str_eqb_refl. Qed.

Section PipelineFiles.

Variable X : Externals.

(** The analysis only talks to the model. *)
Lemma run_complete_analysis_frame (job_description resume_text : str)
    (st : State) :
  let st' := snd (run_complete_analysis X job_description resume_text st) in
  files st' = files st
  /\ vector_store st' = vector_store st
  /\ persisted st' = persisted st
  /\ filter is_write (log st') = filter is_write (log st).
Proof.
  unfold run_complete_analysis, bind.
  rewrite analyze_job_description_run.
  destruct (stage_outcome X job_report _) as [j|e];
    [rewrite analyze_resume_run;
     destruct (stage_outcome X resume_report _) as [r|e];
     [rewrite create_matching_strategy_run;
      destruct (stage_outcome X strategy_report _) as [s|e]|]|];
    cbn [snd ret record files vector_store persisted log];
    rewrite ?filter_app; cbn [filter is_write]; rewrite ?app_nil_r; auto.
Qed.

Lemma run_complete_analysis_strategy_dict (job_description resume_text : str)
    (st st1 : State) (a : Analysis) :
  run_complete_analysis X job_description resume_text st = (Ok a, st1) ->
  exists kv, strategy a = JObj kv.
Proof.
  unfold run_complete_analysis, bind.
  rewrite analyze_job_description_run.
  destruct (stage_outcome X job_report _) as [j|e]; [|discriminate].
  rewrite analyze_resume_run.
  destruct (stage_outcome X resume_report _) as [r|e]; [|discriminate].
  rewrite create_matching_strategy_run.
  destruct (stage_outcome X strategy_report _) as [s|e] eqn:Hs; [|discriminate].
  intros [= <- _]. cbn [strategy].
  apply (stage_outcome_ok X strategy_report strategy_shape) in Hs;
    [|exact strategy_report_shape].
  destruct Hs as (_ & _ & _ & Hshape).
  destruct s; try discriminate. eauto.
Qed.

(** The pipeline once the document is rendered: the two writes. *)
Lemma run_complete_pipeline_writes
    (latex_template job_description resume_text output_filename : str)
    (st st1 st2 : State) (a : Analysis) (doc : str) :
  run_complete_analysis X job_description resume_text st = (Ok a, st1) ->
  generate_tailored_resume X latex_template (resume_data a) (strategy a)
    (job_analysis a) st1 = (Ok doc, st2) ->
  run_complete_pipeline X latex_template job_description resume_text
    output_filename st =
  let output_path := path_join X (module_dir X) output_filename in
  let analysis_file := Main.analysis_file_of output_filename in
  match open_error X (log st2) output_path with
  | Some e => (Raise e, st2)
  | None =>
      let st3 := record (EvWrite output_path doc)
                   (set_files ((output_path, doc) :: files st2) st2) in
      match open_error X (log st3) analysis_file with
      | Some e => (Raise e, st3)
      | None =>
          (Ok output_path,
           record (EvWrite analysis_file (json_dumps X (analysis_dict a)))
             (set_files
                ((analysis_file, json_dumps X (analysis_dict a)) :: files st3)
                st3))
      end
  end.
Proof.
  intros Hanalysis Hrender.
  destruct (run_complete_analysis_strategy_dict _ _ _ Hanalysis) as (kv & Hkv).
  unfold run_complete_pipeline. unfold bind at 1. rewrite Hanalysis.
  unfold bind at 1. rewrite Hrender. rewrite Hkv.
  run_method. cbn [dict_get].
  destruct (open_error X (log st2) _); [reflexivity|].
  destruct (open_error X _ _); reflexivity.
Qed.

(** X5. When the analysis and the rendering return and both files can be
    opened, [run_complete_pipeline] returns the path of the document, the
    document file then the snapshot file are written (in that order, after
    the four model calls), and nothing else is written. *)
Theorem run_complete_pipeline_success
    (latex_template job_description resume_text output_filename : str)
    (st st1 st2 : State) (a : Analysis) (doc : str) :
  run_complete_analysis X job_description resume_text st = (Ok a, st1) ->
  generate_tailored_resume X latex_template (resume_data a) (strategy a)
    (job_analysis a) st1 = (Ok doc, st2) ->
  open_error X (log st2) (path_join X (module_dir X) output_filename) = None ->
  open_error X
    (log st2 ++ [EvWrite (path_join X (module_dir X) output_filename) doc])
    (replace (lit ".tex") (lit "_analysis.json") output_filename) = None ->
  exists st4,
    run_complete_pipeline X latex_template job_description resume_text
      output_filename st
    = (Ok (path_join X (module_dir X) output_filename), st4)
    /\ files st4 =
         (replace (lit ".tex") (lit "_analysis.json") output_filename,
          json_dumps X (analysis_dict a))
         :: (path_join X (module_dir X) output_filename, doc)
         :: files st
    /\ log st4 =
         log st2
         ++ [ EvWrite (path_join X (module_dir X) output_filename) doc;
              EvWrite (replace (lit ".tex") (lit "_analysis.json") output_filename)
                (json_dumps X (analysis_dict a)) ].
Proof.
  intros Hanalysis Hrender Hopen1 Hopen2.
  rewrite run_complete_pipeline_writes
    with (a := a) (st1 := st1) (st2 := st2) (doc := doc) by assumption.
  cbv zeta. unfold Main.analysis_file_of.
  rewrite Hopen1. state_fields. rewrite Hopen2.
  eexists. split; [reflexivity|]. state_fields.
  pose proof (run_complete_analysis_frame job_description resume_text st)
    as (Hfiles & _). rewrite Hanalysis in Hfiles. cbn [snd] in Hfiles.
  rewrite generate_tailored_resume_run in Hrender.
  injection Hrender as _ <-. state_fields.
  rewrite Hfiles, <- app_assoc. auto.
Qed.

(** X6. When the snapshot file cannot be opened, [run_complete_pipeline]
    raises although the tailored document has already been written: the
    failed run leaves the document file behind and no snapshot. *)
Theorem run_complete_pipeline_snapshot_failure
    (latex_template job_description resume_text output_filename : str)
    (st st1 st2 : State) (a : Analysis) (doc : str) (e : Exn) :
  run_complete_analysis X job_description resume_text st = (Ok a, st1) ->
  generate_tailored_resume X latex_template (resume_data a) (strategy a)
    (job_analysis a) st1 = (Ok doc, st2) ->
  open_error X (log st2) (path_join X (module_dir X) output_filename) = None ->
  open_error X
    (log st2 ++ [EvWrite (path_join X (module_dir X) output_filename) doc])
    (replace (lit ".tex") (lit "_analysis.json") output_filename) = Some e ->
  exists st3,
    run_complete_pipeline X latex_template job_description resume_text
      output_filename st = (Raise e, st3)
    /\ files st3 =
         (path_join X (module_dir X) output_filename, doc) :: files st
    /\ assoc (path_join X (module_dir X) output_filename) (files st3) = Some doc.
Proof.
  intros Hanalysis Hrender Hopen1 Hopen2.
  rewrite run_complete_pipeline_writes
    with (a := a) (st1 := st1) (st2 := st2) (doc := doc) by assumption.
  cbv zeta. unfold Main.analysis_file_of.
  rewrite Hopen1. state_fields. rewrite Hopen2.
  eexists. split; [reflexivity|]. state_fields.
  pose proof (run_complete_analysis_frame job_description resume_text st)
    as (Hfiles & _). rewrite Hanalysis in Hfiles. cbn [snd] in Hfiles.
  rewrite generate_tailored_resume_run in Hrender.
  injection Hrender as _ <-. state_fields.
  rewrite Hfiles. split; [reflexivity | apply assoc_head].
Qed.

(** X7. A failure of any of the four model stages, not only of the resume
    analysis, makes [run_complete_pipeline] raise that exception before any
    file is opened: the files are as before and no write is logged. *)
Theorem run_complete_pipeline_stage_failure
    (latex_template job_description resume_text output_filename : str)
    (st : State) (e : Exn) :
  (forall st1,
     run_complete_analysis X job_description resume_text st = (Raise e, st1) ->
     run_complete_pipeline X latex_template job_description resume_text
       output_filename st = (Raise e, st1)
     /\ files st1 = files st
     /\ filter is_write (log st1) = filter is_write (log st))
  /\ (forall a st1 st2,
        run_complete_analysis X job_description resume_text st = (Ok a, st1) ->
        generate_tailored_resume X latex_template (resume_data a) (strategy a)
          (job_analysis a) st1 = (Raise e, st2) ->
        run_complete_pipeline X latex_template job_description resume_text
          output_filename st = (Raise e, st2)
        /\ files st2 = files st
        /\ filter is_write (log st2) = filter is_write (log st)).
Proof.
  pose proof (run_complete_analysis_frame job_description resume_text st)
    as (Hfiles & _ & _ & Hlog).
  split.
  - intros st1 Hanalysis. rewrite Hanalysis in Hfiles, Hlog.
    cbn [snd] in Hfiles, Hlog.
    unfold run_complete_pipeline, bind at 1. rewrite Hanalysis. auto.
  - intros a st1 st2 Hanalysis Hrender. rewrite Hanalysis in Hfiles, Hlog.
    cbn [snd] in Hfiles, Hlog.
    unfold run_complete_pipeline. unfold bind at 1. rewrite Hanalysis.
    unfold bind at 1. rewrite Hrender. split; [reflexivity|].
    rewrite generate_tailored_resume_run in Hrender.
    injection Hrender as _ <-. state_fields.
    rewrite filter_app. cbn [filter is_write]. rewrite app_nil_r. auto.
Qed.

(** X8. An output file name without [.tex] is also the name of the
    snapshot file. When the pipeline succeeds with such a name and joining
    it to the module directory gives the name back (an absolute path does),
    the file returned as the tailored resume holds the analysis snapshot:
    the document written first is overwritten. *)
Theorem run_complete_pipeline_overwrites_document
    (latex_template job_description resume_text output_filename : str)
    (st st1 st4 : State) (a : Analysis) (p : str) :
  find (lit ".tex") output_filename = None ->
  path_join X (module_dir X) output_filename = output_filename ->
  run_complete_analysis X job_description resume_text st = (Ok a, st1) ->
  run_complete_pipeline X latex_template job_description resume_text
    output_filename st = (Ok p, st4) ->
  p = output_filename
  /\ assoc output_filename (files st4) = Some (json_dumps X (analysis_dict a))
  /\ exists doc,
       files st4 =
         (output_filename, json_dumps X (analysis_dict a))
         :: (output_filename, doc) :: files st.
Proof.
  intros Hname Hjoin Hanalysis Hrun.
  pose proof (run_complete_analysis_frame job_description resume_text st)
    as (Hfiles & _). rewrite Hanalysis in Hfiles. cbn [snd] in Hfiles.
  destruct (generate_tailored_resume X latex_template (resume_data a)
              (strategy a) (job_analysis a) st1) as [[doc|e] st2] eqn:Hrender.
  - rewrite run_complete_pipeline_writes
      with (a := a) (st1 := st1) (st2 := st2) (doc := doc) in Hrun
      by assumption.
    cbv zeta in Hrun. unfold Main.analysis_file_of in Hrun.
    change (replace (lit ".tex") (lit "_analysis.json") output_filename)
      with (replace_from (lit ".tex") (lit "_analysis.json") 0 output_filename)
      in Hrun.
    rewrite replace_from_absent, Hjoin in Hrun by exact Hname.
    destruct (open_error X (log st2) output_filename); [discriminate|].
    destruct (open_error X _ output_filename); [discriminate|].
    injection Hrun as <- <-. state_fields.
    rewrite generate_tailored_resume_run in Hrender.
    injection Hrender as _ <-. state_fields. rewrite Hfiles.
    split; [reflexivity|]. split; [apply assoc_head | eauto].
  - exfalso. revert Hrun.
    unfold run_complete_pipeline. unfold bind at 1. rewrite Hanalysis.
    unfold bind at 1. rewrite Hrender. discriminate.
Qed.

End PipelineFiles.

Lemma run_complete_pipeline_success_witness :
  fst (run_complete_pipeline Stub.scripted4 Stub.one_slot_template
         Stub.job_text Stub.resume_text (lit "tailored_resume.tex")
         Stub.empty_state)
  = Ok (lit "agents/tailored_resume.tex")
  /\ files (snd (run_complete_pipeline Stub.scripted4 Stub.one_slot_template
                   Stub.job_text Stub.resume_text (lit "tailored_resume.tex")
                   Stub.empty_state))
     = [ (lit "tailored_resume_analysis.json", lit "ANALYSIS");
         (lit "agents/tailored_resume.tex",
          lit "\begin{document}\section{Summary}\end{document}") ].
Proof.
  destruct (@run_complete_pipeline_success Stub.scripted4
              Stub.one_slot_template Stub.job_text Stub.resume_text
              (lit "tailored_resume.tex") Stub.empty_state
              (snd (run_complete_analysis Stub.scripted4 Stub.job_text
                      Stub.resume_text Stub.empty_state))
              (snd (generate_tailored_resume Stub.scripted4
                      Stub.one_slot_template Stub.resume_json
                      Stub.strategy_json Stub.job_json
                      (snd (run_complete_analysis Stub.scripted4 Stub.job_text
                              Stub.resume_text Stub.empty_state))))
              Stub.canned_analysis
              (lit "\begin{document}\section{Summary}\end{document}")
              eq_refl eq_refl eq_refl eq_refl)
    as (st4 & Hrun & Hfiles & _).
  rewrite Hrun. cbn [fst snd]. split; [reflexivity | exact Hfiles].
Defined.

Lemma run_complete_pipeline_snapshot_failure_witness :
  fst (run_complete_pipeline Stub.scripted4_snapshot_denied
         Stub.one_slot_template Stub.job_text Stub.resume_text
         (lit "tailored_resume.tex") Stub.empty_state)
  = Raise (mkExn ExternalError (lit "[Errno 13] Permission denied"))
  /\ files (snd (run_complete_pipeline Stub.scripted4_snapshot_denied
                   Stub.one_slot_template Stub.job_text Stub.resume_text
                   (lit "tailored_resume.tex") Stub.empty_state))
     = [ (lit "agents/tailored_resume.tex",
          lit "\begin{document}\section{Summary}\end{document}") ].
Proof.
  destruct (@run_complete_pipeline_snapshot_failure
              Stub.scripted4_snapshot_denied
              Stub.one_slot_template Stub.job_text Stub.resume_text
              (lit "tailored_resume.tex") Stub.empty_state
              (snd (run_complete_analysis Stub.scripted4_snapshot_denied
                      Stub.job_text Stub.resume_text Stub.empty_state))
              (snd (generate_tailored_resume Stub.scripted4_snapshot_denied
                      Stub.one_slot_template Stub.resume_json
                      Stub.strategy_json Stub.job_json
                      (snd (run_complete_analysis Stub.scripted4_snapshot_denied
                              Stub.job_text Stub.resume_text Stub.empty_state))))
              Stub.canned_analysis
              (lit "\begin{document}\section{Summary}\end{document}")
              (mkExn ExternalError (lit "[Errno 13] Permission denied"))
              eq_refl eq_refl eq_refl eq_refl)
    as (st3 & Hrun & Hfiles & _).
  rewrite Hrun. cbn [fst snd]. split; [reflexivity | exact Hfiles].
Defined.

Lemma run_complete_pipeline_overwrites_document_witness :
  assoc (lit "/tmp/resume.txt")
    (files (snd (run_complete_pipeline Stub.scripted4 Stub.one_slot_template
                   Stub.job_text Stub.resume_text (lit "/tmp/resume.txt")
                   Stub.empty_state)))
  = Some (lit "ANALYSIS").
Proof.
  exact (proj1 (proj2
    (@run_complete_pipeline_overwrites_document Stub.scripted4
       Stub.one_slot_template Stub.job_text Stub.resume_text
       (lit "/tmp/resume.txt") Stub.empty_state
       (snd (run_complete_analysis Stub.scripted4 Stub.job_text
               Stub.resume_text Stub.empty_state))
       (snd (run_complete_pipeline Stub.scripted4 Stub.one_slot_template
               Stub.job_text Stub.resume_text (lit "/tmp/resume.txt")
               Stub.empty_state))
       Stub.canned_analysis (lit "/tmp/resume.txt")
       eq_refl eq_refl eq_refl eq_refl))).
Defined.

(* ------------------------------------------------------------------ *)
(** ** The index across ingestions, users and restarts *)

Section IndexSharing.

Variable X : Externals.

Lemma ingest_documents_success
    (resume_text : str) (job_description : option str) (user_id : str)
    (st st1 : State) (n : nat) (has_jd : bool) (path message : str) :
  ingest_documents X resume_text job_description user_id st
    = (Ok (IngestOk n has_jd path message), st1) ->
  exists chunks,
    split_documents X
      (ingest_documents_list resume_text job_description user_id) = Ok chunks
    /\ n = length chunks
    /\ has_jd = meaningful job_description
    /\ path = store_path_of X user_id
    /\ vector_store st1 = Some chunks
    /\ persisted st1 = (store_path_of X user_id, chunks) :: persisted st.
Proof.
  rewrite ingest_documents_run. cbv zeta.
  destruct (split_documents X _) as [chunks|e]; [|discriminate].
  destruct (embed_error X (log st) chunks) as [e|]; [discriminate|].
  destruct (save_error X _ _) as [e|]; [discriminate|].
  intros [= <- <- <- _ <-]. exists chunks. state_fields. auto 10.
Qed.

(** X9. A successful [ingest_documents] rebuilds the index: the index in
    memory and the index saved under the user's path are both exactly the
    chunks of the documents just given, and [chunks_created] is their
    number. Nothing of the index that was resident before (ingested text or
    feedback) is carried over. *)
Theorem ingest_documents_rebuilds_index
    (resume_text : str) (job_description : option str) (user_id : str)
    (st st1 : State) (n : nat) (has_jd : bool) (path message : str) :
  ingest_documents X resume_text job_description user_id st
    = (Ok (IngestOk n has_jd path message), st1) ->
  exists chunks,
    split_documents X
      (ingest_documents_list resume_text job_description user_id) = Ok chunks
    /\ n = length chunks
    /\ vector_store st1 = Some chunks
    /\ assoc (store_path_of X user_id) (persisted st1) = Some chunks.
Proof.
  intros Hrun.
  destruct (ingest_documents_success _ _ _ _ Hrun)
    as (chunks & Hsplit & Hn & _ & _ & Hstore & Hdisk).
  exists chunks. rewrite Hdisk, assoc_head. auto.
Qed.

(** X10. The engine holds one index for all users: once an index is
    resident, [generate_tailored_content] does not look at [user_id], so a
    call made for any user is answered from the resident index. *)
Theorem generate_tailored_content_ignores_user_id
    (instruction user_a user_b : str) (context_override : option str)
    (st : State) (vs : VectorStore) :
  vector_store st = Some vs ->
  generate_tailored_content X instruction user_a context_override st
  = generate_tailored_content X instruction user_b context_override st.
Proof.
  intros Hstore.
  unfold generate_tailored_content, try_except, bind, get_store.
  cbv beta. rewrite Hstore. reflexivity.
Qed.

(** X11. Save and load agree: after a successful ingestion, a process that
    starts with no index in memory and the same saved indexes loads, on its
    first [generate_tailored_content] for that user, exactly the chunks that
    were ingested. *)
Theorem ingested_index_is_reloaded
    (resume_text : str) (job_description : option str) (user_id : str)
    (st st1 restarted : State) (n : nat) (has_jd : bool) (path message : str)
    (instruction : str) (context_override : option str) :
  ingest_documents X resume_text job_description user_id st
    = (Ok (IngestOk n has_jd path message), st1) ->
  vector_store restarted = None ->
  persisted restarted = persisted st1 ->
  load_error X (log restarted) (store_path_of X user_id) = None ->
  exists chunks,
    split_documents X
      (ingest_documents_list resume_text job_description user_id) = Ok chunks
    /\ vector_store
         (snd (generate_tailored_content X instruction user_id
                 context_override restarted)) = Some chunks.
Proof.
  intros Hrun Hnone Hdisk Hload.
  destruct (ingest_documents_success _ _ _ _ Hrun)
    as (chunks & Hsplit & _ & _ & _ & _ & Hsaved).
  exists chunks. split; [exact Hsplit|].
  destruct (generate_tailored_content_loads X instruction user_id
              context_override restarted (vs := chunks)) as (rest & _ & Hstore);
    auto.
  rewrite Hdisk, Hsaved. apply assoc_head.
Qed.

(** X12. Feedback is kept in memory only: [learn_from_feedback] never
    changes the saved indexes or the files, whatever it returns. So a
    process restarted after feedback was stored loads the index as it was
    saved, without the feedback chunks. *)
Theorem learned_feedback_is_not_saved
    (user_id instruction generated_content feedback : str) (rating : Z)
    (st : State) :
  let st2 := snd (learn_from_feedback X user_id instruction generated_content
                    feedback rating st) in
  persisted st2 = persisted st
  /\ files st2 = files st
  /\ (forall saved restarted instruction' context_override,
        assoc (store_path_of X user_id) (persisted st) = Some saved ->
        vector_store restarted = None ->
        persisted restarted = persisted st2 ->
        load_error X (log restarted) (store_path_of X user_id) = None ->
        vector_store
          (snd (generate_tailored_content X instruction' user_id
                  context_override restarted)) = Some saved).
Proof.
  cbv zeta.
  assert (Hdisk :
    persisted (snd (learn_from_feedback X user_id instruction generated_content
                      feedback rating st)) = persisted st
    /\ files (snd (learn_from_feedback X user_id instruction generated_content
                     feedback rating st)) = files st).
  { rewrite learn_from_feedback_run.
    destruct (vector_store st) as [vs|]; [|auto].
    destruct (split_documents X _) as [chunks|e]; [|auto].
    destruct (embed_error X (log st) chunks) as [e|]; auto. }
  destruct Hdisk as (Hdisk & Hfiles).
  split; [exact Hdisk|]. split; [exact Hfiles|].
  intros saved restarted instruction' context_override Hsaved Hnone Hsame Hload.
  destruct (generate_tailored_content_loads X instruction' user_id
              context_override restarted (vs := saved)) as (rest & _ & Hstore);
    auto.
  now rewrite Hsame, Hdisk.
Qed.

End IndexSharing.

Lemma ingest_documents_rebuilds_index_witness :
  vector_store
    (snd (ingest_documents (Stub.says []) (lit "A new resume") None (lit "u2")
            Stub.resident_state))
  = Some [resume_document (lit "A new resume") (lit "u2")].
Proof.
  destruct (@ingest_documents_rebuilds_index (Stub.says [])
              (lit "A new resume") None (lit "u2") Stub.resident_state
              (snd (ingest_documents (Stub.says []) (lit "A new resume") None
                      (lit "u2") Stub.resident_state))
              1 false (lit "./vector_stores/user_u2")
              (lit "Resume ingested successfully! Add a job description for better tailoring.")
              eq_refl)
    as (chunks & Hsplit & _ & Hstore & _).
  rewrite Hstore. injection Hsplit as <-. reflexivity.
Defined.

Lemma generate_tailored_content_ignores_user_id_witness :
  generate_tailored_content (Stub.says []) (lit "emphasize Python") (lit "u1")
    None Stub.resident_state
  = generate_tailored_content (Stub.says []) (lit "emphasize Python")
      (lit "someone-else") None Stub.resident_state.
Proof.
  exact (@generate_tailored_content_ignores_user_id (Stub.says [])
           (lit "emphasize Python") (lit "u1") (lit "someone-else") None
           Stub.resident_state _ eq_refl).
Defined.

Lemma ingested_index_is_reloaded_witness :
  vector_store
    (snd (generate_tailored_content (Stub.says []) (lit "emphasize Python")
            (lit "u1") None
            (set_store None
               (snd (ingest_documents (Stub.says []) Stub.resume_text None
                       (lit "u1") Stub.empty_state)))))
  = Some [resume_document Stub.resume_text (lit "u1")].
Proof.
  destruct (@ingested_index_is_reloaded (Stub.says []) Stub.resume_text None
              (lit "u1") Stub.empty_state
              (snd (ingest_documents (Stub.says []) Stub.resume_text None
                      (lit "u1") Stub.empty_state))
              (set_store None
                 (snd (ingest_documents (Stub.says []) Stub.resume_text None
                         (lit "u1") Stub.empty_state)))
              1 false (lit "./vector_stores/user_u1")
              (lit "Resume ingested successfully! Add a job description for better tailoring.")
              (lit "emphasize Python") None
              eq_refl eq_refl eq_refl eq_refl)
    as (chunks & Hsplit & Hstore).
  rewrite Hstore. injection Hsplit as <-. reflexivity.
Defined.

(* ------------------------------------------------------------------ *)
(** ** The other methods of the RAG resume agent *)

Section AgentFacts.

Variable X : Externals.

Lemma ingest_documents_returns (resume_text : str)
    (job_description : option str) (user_id : str) (st : State) :
  exists r st',
    ingest_documents X resume_text job_description user_id st = (Ok r, st').
Proof.
  rewrite ingest_documents_run. cbv zeta.
  destruct (split_documents X _) as [chunks|e]; [|eauto].
  destruct (embed_error X (log st) chunks) as [e|]; [eauto|].
  destruct (save_error X _ _) as [e|]; eauto.
Qed.

Lemma get_suggestions_returns (resume_text : str)
    (job_description : option str) (st : State) :
  exists suggestions st',
    get_suggestions X resume_text job_description st = (Ok suggestions, st')
    /\ length suggestions <= 5.
Proof.
  unfold get_suggestions. run_method.
  destruct (generate_content X (log st) _) as [text|e].
  - do 2 eexists. split; [reflexivity|]. apply parse_suggestions_bounded.
  - do 2 eexists. split; [reflexivity|]. cbn. lia.
Qed.

(** With an index resident and no override: the search, then the chain. *)
Lemma generate_tailored_content_resident (instruction user_id : str)
    (st : State) (vs : VectorStore) :
  vector_store st = Some vs ->
  generate_tailored_content X instruction user_id None st =
  match similarity_search X (log st) vs instruction 5 with
  | Raise e =>
      (Ok (GenFail (exn_msg e) (lit "Failed to generate tailored content")),
       record (EvSimilaritySearch instruction 5) st)
  | Ok _ =>
      let st1 := record (EvSimilaritySearch instruction 5) st in
      (Ok match retrieval_qa X (log st1) vs prompt_template instruction 5 with
          | Ok result =>
              GenOk (fst result)
                (map (fun doc => upto 200 (page_content doc)) (snd result))
                instruction
          | Raise e =>
              GenFail (exn_msg e) (lit "Failed to generate tailored content")
          end,
       record (EvRetrievalQA prompt_template instruction 5) st1)
  end.
Proof.
  intros Hstore.
  unfold generate_tailored_content, generate_from_store, retrieve_context,
    nonempty.
  run_method. rewrite Hstore. cbv beta iota. rewrite Hstore. cbv beta iota.
  destruct (similarity_search X (log st) vs instruction 5) as [docs|e];
    [|reflexivity].
  state_fields. rewrite ?Hstore. cbv beta iota zeta. state_fields.
  destruct (retrieval_qa X _ vs prompt_template instruction 5); reflexivity.
Qed.

(** X14. [chat] never raises and always answers with a string: the
    generated content, or the text ["Error: "] followed by the error of the
    failed generation. With no index in memory or on disk the answer is the
    not-found error and nothing is called; with an index resident the answer
    is the chain's answer when the search and the chain both succeed. *)
Theorem chat_always_answers (message user_id : str) (st : State) :
  (exists reply st',
     RagAgent.chat X message user_id st = (Ok reply, st'))
  /\ (vector_store st = None ->
      assoc (store_path_of X user_id) (persisted st) = None ->
      RagAgent.chat X message user_id st =
      (Ok (lit "Error: Vector store not found. Please analyze documents first."),
       st))
  /\ (forall vs,
        vector_store st = Some vs ->
        fst (RagAgent.chat X message user_id st) =
        Ok match similarity_search X (log st) vs message 5 with
           | Raise e => lit "Error: " ++ exn_msg e
           | Ok _ =>
               match retrieval_qa X
                       (log st ++ [EvSimilaritySearch message 5]) vs
                       prompt_template message 5 with
               | Ok result => fst result
               | Raise e => lit "Error: " ++ exn_msg e
               end
           end).
Proof.
  split; [|split].
  - unfold RagAgent.chat, bind.
    destruct (generate_tailored_content_returns X message user_id None st)
      as (r & st' & ->).
    destruct r; unfold ret; eauto.
  - intros Hstore Hdisk. unfold RagAgent.chat, bind.
    rewrite generate_tailored_content_not_found by assumption. reflexivity.
  - intros vs Hstore. unfold RagAgent.chat, bind.
    rewrite generate_tailored_content_resident with (vs := vs) by assumption.
    destruct (similarity_search X (log st) vs message 5); [|reflexivity].
    cbv zeta. state_fields.
    destruct (retrieval_qa X _ vs prompt_template message 5); reflexivity.
Qed.

Lemma traditional_analysis_returns (traditional_agent : option str)
    (resume_text : str) (job_description : option str) (st : State) :
  exists resume_analysis job_analysis st',
    RagAgent.traditional_analysis X traditional_agent resume_text
      job_description st = (Ok (resume_analysis, job_analysis), st')
    /\ (job_analysis <> None -> resume_analysis <> None)
    /\ (traditional_agent = None -> resume_analysis = None /\ job_analysis = None)
    /\ (nonempty job_description = false -> job_analysis = None)
    /\ (forall r, resume_analysis = Some r ->
          fst (analyze_resume X resume_text st) = Ok r).
Proof.
  unfold RagAgent.traditional_analysis.
  destruct traditional_agent as [agent|].
  2:{ exists None, None, st. unfold ret. repeat split; cbn [fst]; congruence. }
  unfold try_except at 1. unfold bind at 1.
  destruct (analyze_resume X resume_text st) as [[r|e] st1].
  2:{ exists None, None, st1. unfold ret. repeat split; cbn [fst]; congruence. }
  unfold try_except, bind.
  destruct (nonempty job_description).
  - destruct (analyze_job_description X (text_of job_description) st1)
      as [[j|e] st2]; unfold ret.
    + exists (Some r), (Some j), st2. repeat split; cbn [fst]; congruence.
    + exists (Some r), None, st2. repeat split; cbn [fst]; congruence.
  - unfold ret. exists (Some r), None, st1. repeat split; cbn [fst]; congruence.
Qed.

(** X15. [analyze_and_ingest] never raises and always reports the status
    [ready_for_tailoring], also when the ingestion record says it failed.
    A job analysis is present only together with the resume analysis; both
    are absent without a traditional agent, the job analysis also for an
    empty job description; a resume analysis that is present is what
    [analyze_resume] returned; at most five suggestions are attached. *)
Theorem analyze_and_ingest_always_ready (traditional_agent : option str)
    (resume_text : str) (job_description : option str) (user_id : str)
    (st : State) :
  exists r st',
    RagAgent.analyze_and_ingest X traditional_agent resume_text
      job_description user_id st = (Ok r, st')
    /\ RagAgent.status r = lit "ready_for_tailoring"
    /\ (RagAgent.job_analysis r <> None -> RagAgent.resume_analysis r <> None)
    /\ (traditional_agent = None ->
        RagAgent.resume_analysis r = None /\ RagAgent.job_analysis r = None)
    /\ (nonempty job_description = false -> RagAgent.job_analysis r = None)
    /\ (forall a, RagAgent.resume_analysis r = Some a ->
          fst (analyze_resume X resume_text st) = Ok a)
    /\ length (RagAgent.ai_suggestions r) <= 5.
Proof.
  destruct (traditional_analysis_returns traditional_agent resume_text
              job_description st)
    as (ra & ja & st1 & Hta & H1 & H2 & H3 & H4).
  destruct (ingest_documents_returns resume_text job_description user_id st1)
    as (ing & st2 & Hing).
  destruct (get_suggestions_returns resume_text job_description st2)
    as (sug & st3 & Hsug & Hlen).
  exists (RagAgent.mkIngestion ra ja ing sug (lit "ready_for_tailoring")), st3.
  split; [|cbn; auto 10].
  unfold RagAgent.analyze_and_ingest, bind. now rewrite Hta, Hing, Hsug.
Qed.

(** X16. [generate_complete_resume] never returns a generated resume. With
    no traditional agent it returns the [use_rag_only] record and calls
    nothing. With one it analyses the job and then raises: the strategy
    method it calls does not exist, so when the job analysis returned the
    exception is that [AttributeError]; the only model call made is the job
    analysis, and no custom instruction is run. *)
Theorem generate_complete_resume_never_generates
    (traditional_agent : option str) (resume_data : json)
    (job_description user_id : str) (custom_instructions : option (list str))
    (st : State) :
  (traditional_agent = None ->
   RagAgent.generate_complete_resume X traditional_agent resume_data
     job_description user_id custom_instructions st
   = (Ok (RagAgent.Unavailable
            (lit "Traditional agent not available. LaTeX generation requires resume_template.tex")
            (lit "use_rag_only")), st))
  /\ (traditional_agent <> None ->
      exists e,
        RagAgent.generate_complete_resume X traditional_agent resume_data
          job_description user_id custom_instructions st
        = (Raise e, record (EvGenerate (job_prompt job_description)) st)
        /\ (forall j,
              fst (analyze_job_description X job_description st) = Ok j ->
              e = mkExn AttributeError
                    (lit "'ResumeGeneratorAgent' object has no attribute 'create_tailoring_strategy'"))).
Proof.
  split.
  - intros ->. reflexivity.
  - intros Hagent. destruct traditional_agent as [agent|]; [|congruence].
    unfold RagAgent.generate_complete_resume. unfold bind at 1.
    rewrite analyze_job_description_run. cbn [fst].
    destruct (stage_outcome X job_report _) as [j|e].
    + eexists. split; [reflexivity|]. intros j' _. reflexivity.
    + exists e. split; [reflexivity|]. discriminate.
Qed.

End AgentFacts.

Lemma generate_complete_resume_never_generates_witness :
  fst (RagAgent.generate_complete_resume Stub.scripted4
         (Some Stub.one_slot_template) Stub.resume_json Stub.job_text
         (lit "u1") (Some [lit "emphasize Python"]) Stub.resident_state)
  = Raise (mkExn AttributeError
             (lit "'ResumeGeneratorAgent' object has no attribute 'create_tailoring_strategy'")).
Proof.
  destruct (proj2 (@generate_complete_resume_never_generates Stub.scripted4
                     (Some Stub.one_slot_template) Stub.resume_json
                     Stub.job_text (lit "u1") (Some [lit "emphasize Python"])
                     Stub.resident_state) ltac:(discriminate))
    as (e & Hrun & He).
  rewrite Hrun. cbn [fst]. f_equal. exact (He Stub.job_json eq_refl).
Defined.

(* ------------------------------------------------------------------ *)
(** ** The API functions of [tests/main.py] *)

Section ApiFacts.

Variable X : Externals.
Variable H : Host.

Lemma run_complete_pipeline_ok
    (latex_template job_description resume_text output_filename : str)
    (st st1 st4 : State) (a : Analysis) (p : str) :
  run_complete_analysis X job_description resume_text st = (Ok a, st1) ->
  run_complete_pipeline X latex_template job_description resume_text
    output_filename st = (Ok p, st4) ->
  exists doc,
    files st4 =
      (Main.analysis_file_of output_filename, json_dumps X (analysis_dict a))
      :: (path_join X (module_dir X) output_filename, doc) :: files st.
Proof.
  intros Hanalysis Hrun.
  pose proof (run_complete_analysis_frame X job_description resume_text st)
    as (Hfiles & _). rewrite Hanalysis in Hfiles. cbn [snd] in Hfiles.
  destruct (generate_tailored_resume X latex_template (resume_data a)
              (strategy a) (job_analysis a) st1) as [[doc|e] st2] eqn:Hrender.
  - rewrite run_complete_pipeline_writes
      with (a := a) (st1 := st1) (st2 := st2) (doc := doc) in Hrun
      by assumption.
    cbv zeta in Hrun.
    destruct (open_error X (log st2) _); [discriminate|].
    destruct (open_error X _ _); [discriminate|].
    injection Hrun as _ <-. state_fields.
    rewrite generate_tailored_resume_run in Hrender.
    injection Hrender as _ <-. state_fields. rewrite Hfiles. eauto.
  - exfalso. revert Hrun.
    unfold run_complete_pipeline. unfold bind at 1. rewrite Hanalysis.
    unfold bind at 1. rewrite Hrender. discriminate.
Qed.

Lemma match_score_of_strategy
    (job_description resume_text : str) (st st1 : State) (a : Analysis) :
  run_complete_analysis X job_description resume_text st = (Ok a, st1) ->
  exists score,
    dict_get (strategy a) (lit "overall_match_score") (JInt 0) = Ok score.
Proof.
  intros Hanalysis.
  edestruct run_complete_analysis_strategy_dict as (kv & Hkv);
    [exact Hanalysis|].
  rewrite Hkv. cbn [dict_get]. eauto.
Qed.

(** X17. The wrapper [generate_tailored_resume] reads back what the pipeline
    wrote: when the agent can be built, the pipeline returns, and [json]
    parses the snapshot it serialized, the wrapper returns success with the
    requested file name, the snapshot name, and as [match_score] the
    strategy's [overall_match_score] (0 when the strategy has none). *)
Theorem api_generate_reads_back_match_score
    (job_description resume_text output_filename latex_template : str)
    (st st1 st4 : State) (a : Analysis) (p : str) :
  ResumeGeneratorAgent_init H = Ok latex_template ->
  run_complete_analysis X job_description resume_text st = (Ok a, st1) ->
  run_complete_pipeline X latex_template job_description resume_text
    output_filename st = (Ok p, st4) ->
  json_loads X (json_dumps X (analysis_dict a)) = Ok (analysis_dict a) ->
  exists score,
    dict_get (strategy a) (lit "overall_match_score") (JInt 0) = Ok score
    /\ Main.generate_tailored_resume X H job_description resume_text
         output_filename st
       = (Ok (Main.TailorOk output_filename
                (replace (lit ".tex") (lit "_analysis.json") output_filename)
                score
                (lit "Resume generated successfully with "
                 ++ Main.format_value H score ++ lit "/100 match score")),
          st4).
Proof.
  intros Hagent Hanalysis Hrun Hparse.
  edestruct match_score_of_strategy as (score & Hscore); [exact Hanalysis|].
  edestruct run_complete_pipeline_ok as (doc & Hfiles);
    [exact Hanalysis | exact Hrun |].
  exists score. split; [exact Hscore|].
  unfold Main.generate_tailored_resume, try_except, lift, read_file.
  unfold bind at 1. rewrite Hagent.
  unfold bind at 1. rewrite Hrun.
  unfold bind at 1. rewrite Hfiles, assoc_head.
  unfold bind at 1. rewrite Hparse.
  unfold bind at 1.
  change (dict_get (analysis_dict a) (lit "strategy") (JObj []))
    with (Ok (A := json) (strategy a)).
  unfold bind at 1. rewrite Hscore. reflexivity.
Qed.

(** X18. Neither API function raises. With a missing, empty or placeholder
    [GEMINI_API_KEY] both return their failure record with the message
    ["Error: Missing API key"], and no model call or file write is made. *)
Theorem api_functions_fail_softly
    (job_description resume_text output_filename : str) (st : State) :
  (exists r st',
     Main.generate_tailored_resume X H job_description resume_text
       output_filename st = (Ok r, st'))
  /\ (exists r st',
        Main.analyze_job_and_resume X H job_description resume_text st
        = (Ok r, st'))
  /\ (unusable_key (gemini_api_key H) = true ->
      Main.generate_tailored_resume X H job_description resume_text
        output_filename st
      = (Ok (Main.TailorFailed (lit "Error: Missing API key")), st)
      /\ Main.analyze_job_and_resume X H job_description resume_text st
         = (Ok (Main.AnalysisFailed (lit "Error: Missing API key")), st)).
Proof.
  split; [|split].
  - unfold Main.generate_tailored_resume, try_except.
    match goal with
    | |- context [match ?m st with _ => _ end] => destruct (m st) as [[r|e] st']
    end; unfold ret; eauto.
  - unfold Main.analyze_job_and_resume, try_except.
    match goal with
    | |- context [match ?m st with _ => _ end] => destruct (m st) as [[r|e] st']
    end; unfold ret; eauto.
  - intros Hkey.
    unfold Main.generate_tailored_resume, Main.analyze_job_and_resume,
      try_except, bind, lift, ResumeGeneratorAgent_init, BaseAgent_init.
    rewrite Hkey. split; reflexivity.
Qed.

(** X19. [analyze_job_and_resume] with a usable agent returns the three
    records of [run_complete_analysis] with the strategy's
    [overall_match_score] (0 when absent), reading the score never fails;
    when the analysis raises it returns the failure record carrying the
    exception text. *)
Theorem api_analyze_returns_analysis
    (job_description resume_text latex_template : str) (st : State) :
  ResumeGeneratorAgent_init H = Ok latex_template ->
  (forall a st1,
     run_complete_analysis X job_description resume_text st = (Ok a, st1) ->
     exists score,
       dict_get (strategy a) (lit "overall_match_score") (JInt 0) = Ok score
       /\ Main.analyze_job_and_resume X H job_description resume_text st
          = (Ok (Main.AnalysisOk (job_analysis a) (resume_data a) (strategy a)
                   score (lit "Analysis completed successfully")), st1))
  /\ (forall e st1,
        run_complete_analysis X job_description resume_text st = (Raise e, st1) ->
        Main.analyze_job_and_resume X H job_description resume_text st
        = (Ok (Main.AnalysisFailed (lit "Error: " ++ exn_msg e)), st1)).
Proof.
  intros Hagent. split.
  - intros a st1 Hanalysis.
    edestruct match_score_of_strategy as (score & Hscore); [exact Hanalysis|].
    exists score. split; [exact Hscore|].
    unfold Main.analyze_job_and_resume, try_except, lift.
    unfold bind at 1. rewrite Hagent.
    unfold bind at 1. rewrite Hanalysis.
    unfold bind at 1. rewrite Hscore. reflexivity.
  - intros e st1 Hanalysis.
    unfold Main.analyze_job_and_resume, try_except, lift.
    unfold bind at 1. rewrite Hagent.
    unfold bind at 1. rewrite Hanalysis. reflexivity.
Qed.

End ApiFacts.

Lemma api_generate_reads_back_match_score_witness :
  fst (Main.generate_tailored_resume Stub.scripted4 Stub.host_ok Stub.job_text
         Stub.resume_text (lit "tailored_resume.tex") Stub.empty_state)
  = Ok (Main.TailorOk (lit "tailored_resume.tex")
          (lit "tailored_resume_analysis.json") (JInt 62)
          (lit "Resume generated successfully with 62/100 match score")).
Proof.
  destruct (@api_generate_reads_back_match_score Stub.scripted4 Stub.host_ok
              Stub.job_text Stub.resume_text (lit "tailored_resume.tex")
              Stub.one_slot_template Stub.empty_state
              (snd (run_complete_analysis Stub.scripted4 Stub.job_text
                      Stub.resume_text Stub.empty_state))
              (snd (run_complete_pipeline Stub.scripted4
                      Stub.one_slot_template Stub.job_text Stub.resume_text
                      (lit "tailored_resume.tex") Stub.empty_state))
              Stub.canned_analysis (lit "agents/tailored_resume.tex")
              eq_refl eq_refl eq_refl eq_refl)
    as (score & Hscore & Hrun).
  rewrite Hrun. injection Hscore as <-. reflexivity.
Defined.

Lemma api_analyze_returns_analysis_witness :
  fst (Main.analyze_job_and_resume Stub.scripted Stub.host_ok Stub.job_text
         Stub.resume_text Stub.empty_state)
  = Ok (Main.AnalysisOk Stub.job_json Stub.resume_json Stub.strategy_json
          (JInt 62) (lit "Analysis completed successfully")).
Proof.
  destruct (proj1 (@api_analyze_returns_analysis Stub.scripted Stub.host_ok
                     Stub.job_text Stub.resume_text Stub.one_slot_template
                     Stub.empty_state eq_refl)
              Stub.canned_analysis
              (snd (run_complete_analysis Stub.scripted Stub.job_text
                      Stub.resume_text Stub.empty_state))
              eq_refl)
    as (score & Hscore & Hrun).
  rewrite Hrun. injection Hscore as <-. reflexivity.
Defined.

(* ------------------------------------------------------------------ *)
(** ** The singletons *)

Lemma get_rag_agent_run (H : Host) (g : Globals) :
  get_rag_agent H g =
  match rag_agent g with
  | Some agent => (Some agent, g)
  | None =>
      if rag_engine_set g || engine_builds H
      then
        let traditional :=
          match ResumeGeneratorAgent_init H with
          | Ok latex_template => Some latex_template
          | Raise _ => None
          end in
        (Some traditional, mkGlobals true (Some traditional))
      else (None, g)
  end.
Proof.
  unfold get_rag_agent, RAGResumeAgent_init, get_rag_engine, RAGEngine_init,
    engine_builds.
  cbn [nonempty].
  destruct (rag_agent g); [reflexivity|].
  destruct (rag_engine_set g) eqn:Hset; [cbn; now rewrite Hset|].
  destruct (unusable_key (gemini_api_key H)); [reflexivity|].
  destruct (engine_setup_error H); reflexivity.
Qed.

Lemma engine_builds_false (H : Host) :
  engine_builds H = false <->
  unusable_key (gemini_api_key H) = true \/ engine_setup_error H <> None.
Proof.
  unfold engine_builds.
  destruct (unusable_key (gemini_api_key H)), (engine_setup_error H);
    cbn; split; auto; try congruence.
  - intros _. right. discriminate.
  - intros [?|?]; congruence.
Qed.

(** X20. [get_rag_agent] never raises. An agent that is set is returned as
    it is, whatever the environment has become, and a call that returns an
    agent sets it. The call returns [None] exactly when no agent and no
    engine exist yet and the engine cannot be built (unusable key, or its
    setup raises); an unreadable template does not prevent the agent, it
    only leaves it without its traditional agent. *)
Theorem get_rag_agent_is_cached (H : Host) (g : Globals) :
  (forall agent, rag_agent g = Some agent -> get_rag_agent H g = (Some agent, g))
  /\ (forall agent H',
        fst (get_rag_agent H g) = Some agent ->
        get_rag_agent H' (snd (get_rag_agent H g))
        = (Some agent, snd (get_rag_agent H g)))
  /\ (fst (get_rag_agent H g) = None <->
      rag_agent g = None /\ rag_engine_set g = false
      /\ (unusable_key (gemini_api_key H) = true \/ engine_setup_error H <> None))
  /\ (forall traditional,
        rag_agent g = None ->
        fst (get_rag_agent H g) = Some traditional ->
        forall latex_template,
          traditional = Some latex_template <->
          ResumeGeneratorAgent_init H = Ok latex_template).
Proof.
  rewrite !get_rag_agent_run. split; [|split; [|split]].
  - intros agent ->. reflexivity.
  - intros agent H'. rewrite get_rag_agent_run.
    destruct (rag_agent g) as [cached|] eqn:Hcached.
    + cbn [fst snd]. intros [= <-]. now rewrite Hcached.
    + destruct (rag_engine_set g || engine_builds H); cbn [fst snd rag_agent].
      * intros [= <-]. reflexivity.
      * discriminate.
  - rewrite <- engine_builds_false.
    destruct (rag_agent g) as [cached|]; cbn [fst].
    + split; [discriminate | intros (? & _); discriminate].
    + destruct (rag_engine_set g), (engine_builds H); cbn [orb fst];
        split; try discriminate; auto; intros (_ & ? & ?); discriminate.
  - intros traditional ->.
    destruct (rag_engine_set g || engine_builds H); cbn [fst];
      [|discriminate].
    intros [= <-] latex_template.
    destruct (ResumeGeneratorAgent_init H); split; congruence.
Qed.

(* ------------------------------------------------------------------ *)
(** ** The file helpers of the backend *)

Lemma mem_char_rev (s : str) (c : char) : mem_char (rev s) c = mem_char s c.
Proof.
  unfold mem_char. induction s as [|x s IH]; [reflexivity|].
  change (rev (x :: s)) with (rev s ++ [x]).
  rewrite existsb_app. unfold char in *. rewrite IH.
  change (existsb (N.eqb c) [x]) with (N.eqb c x || false).
  change (existsb (N.eqb c) (x :: s)) with (N.eqb c x || existsb (N.eqb c) s).
  rewrite orb_false_r. apply orb_comm.
Qed.

Lemma break_at_app (sep : char) (a b : str) :
  mem_char a sep = false ->
  Server.break_at sep (a ++ sep :: b) = Some (a, b).
Proof.
  unfold mem_char. induction a as [|c a IH]; intros Ha.
  - cbn. now rewrite N.eqb_refl.
  - cbn [existsb] in Ha. apply orb_false_elim in Ha as [Hc Ha].
    cbn [app Server.break_at]. rewrite N.eqb_sym, Hc. now rewrite IH.
Qed.

Lemma break_at_found (sep : char) (s : str) :
  mem_char s sep = true -> exists a b, Server.break_at sep s = Some (a, b).
Proof.
  unfold mem_char. induction s as [|c s IH]; [discriminate|].
  cbn [existsb Server.break_at]. rewrite (N.eqb_sym c sep).
  destruct (N.eqb sep c); [eauto|].
  intros Hs. destruct (IH Hs) as (a & b & ->). eauto.
Qed.

Lemma break_at_absent (sep : char) (s : str) :
  mem_char s sep = false -> Server.break_at sep s = None.
Proof.
  unfold mem_char. induction s as [|c s IH]; [reflexivity|].
  cbn [existsb Server.break_at]. rewrite (N.eqb_sym c sep).
  destruct (N.eqb sep c); [discriminate|].
  intros Hs. now rewrite IH.
Qed.

(** [rsplit('.', 1)] cuts at the last dot. *)
Lemma rsplit1_last (sep : char) (stem ext : str) :
  mem_char ext sep = false ->
  Server.rsplit1 sep (stem ++ sep :: ext) = [stem; ext].
Proof.
  intros Hext. unfold Server.rsplit1.
  rewrite rev_app_distr. cbn [rev]. rewrite <- app_assoc. cbn [app].
  rewrite break_at_app by now rewrite mem_char_rev.
  now rewrite !rev_involutive.
Qed.

Section ServerFacts.

Variable unicode_lower : str -> str.
Variable pdf_pages docx_paragraphs : str -> outcome (list str).

(** X21. [allowed_file] never raises. A name without a dot is refused; a
    name with a dot is judged by the text after its last dot alone, lowered:
    it is accepted exactly when that is [pdf] or [docx], whatever comes
    before (nothing, or a name with more dots). *)
Theorem allowed_file_by_last_extension :
  (forall filename, exists b,
     Server.allowed_file unicode_lower filename = inr b)
  /\ (forall filename,
        mem_char filename Server.dot = false ->
        Server.allowed_file unicode_lower filename = inr false)
  /\ (forall stem ext,
        mem_char ext Server.dot = false ->
        Server.allowed_file unicode_lower (stem ++ Server.dot :: ext)
        = inr (str_eqb (Server.lower unicode_lower ext) (lit "pdf")
               || str_eqb (Server.lower unicode_lower ext) (lit "docx"))).
Proof.
  split; [|split].
  - intros filename. unfold Server.allowed_file.
    destruct (mem_char filename Server.dot) eqn:Hdot; [|eauto].
    unfold Server.rsplit1.
    destruct (break_at_found Server.dot (rev filename)) as (a & b & ->);
      [now rewrite mem_char_rev|].
    cbn. eauto.
  - intros filename Hdot. unfold Server.allowed_file. now rewrite Hdot.
  - intros stem ext Hext. unfold Server.allowed_file.
    assert (Hdot : mem_char (stem ++ Server.dot :: ext) Server.dot = true).
    { unfold mem_char. rewrite existsb_app. cbn [existsb].
      rewrite N.eqb_refl. cbn. apply orb_true_r. }
    rewrite Hdot, rsplit1_last by exact Hext.
    cbn [Server.item1 nth_error Server.in_set Server.ALLOWED_EXTENSIONS existsb].
    now rewrite orb_false_r.
Qed.

(** X22. [parse_file] on a path without a dot raises [IndexError], not the
    unsupported-type error. On a path with a dot it goes by the lowered text
    after the last dot: to the PDF parser, to the DOCX parser, or to the
    unsupported-type error carrying that text. Every path [allowed_file]
    accepts reaches one of the two parsers. *)
Theorem parse_file_dispatch :
  (forall file_path,
     mem_char file_path Server.dot = false ->
     Server.parse_file unicode_lower pdf_pages docx_paragraphs file_path
     = inl Server.IndexError)
  /\ (forall stem ext,
        mem_char ext Server.dot = false ->
        Server.parse_file unicode_lower pdf_pages docx_paragraphs
          (stem ++ Server.dot :: ext)
        = if str_eqb (Server.lower unicode_lower ext) (lit "pdf")
          then Server.parse_pdf pdf_pages (stem ++ Server.dot :: ext)
          else if str_eqb (Server.lower unicode_lower ext) (lit "docx")
          then Server.parse_docx docx_paragraphs (stem ++ Server.dot :: ext)
          else inl (Server.UnsupportedFileType (Server.lower unicode_lower ext)))
  /\ (forall file_path,
        Server.allowed_file unicode_lower file_path = inr true ->
        Server.parse_file unicode_lower pdf_pages docx_paragraphs file_path
          = Server.parse_pdf pdf_pages file_path
        \/ Server.parse_file unicode_lower pdf_pages docx_paragraphs file_path
           = Server.parse_docx docx_paragraphs file_path).
Proof.
  split; [|split].
  - intros file_path Hdot. unfold Server.parse_file, Server.rsplit1.
    rewrite break_at_absent by now rewrite mem_char_rev. reflexivity.
  - intros stem ext Hext. unfold Server.parse_file.
    rewrite rsplit1_last by exact Hext. reflexivity.
  - intros file_path. unfold Server.allowed_file, Server.parse_file.
    destruct (mem_char file_path Server.dot); [|discriminate].
    destruct (Server.item1 (Server.rsplit1 Server.dot file_path))
      as [e|after]; [discriminate|].
    cbn [Server.in_set Server.ALLOWED_EXTENSIONS existsb]. intros [= Hin].
    cbv zeta.
    destruct (str_eqb (Server.lower unicode_lower after) (lit "pdf"));
      [now left|].
    destruct (str_eqb (Server.lower unicode_lower after) (lit "docx"));
      [now right|].
    discriminate.
Qed.

End ServerFacts.

Example allowed_file_examples :
  Server.allowed_file (fun s => s) (lit "Jane.Doe.CV.PDF") = inr true
  /\ Server.allowed_file (fun s => s) (lit ".docx") = inr true
  /\ Server.allowed_file (fun s => s) (lit "resume.pdf.exe") = inr false
  /\ Server.allowed_file (fun s => s) (lit "resume.") = inr false
  /\ Server.allowed_file (fun s => s) (lit "pdf") = inr false.
Proof. repeat split; reflexivity. Qed.

(* ------------------------------------------------------------------ *)
(** ** Cleaning a model response of its code fences *)

(** Text without the first character of [old] is passed over by [replace]. *)
Lemma replace_from_past (o : char) (old' new body rest : str) :
  Forall (fun c => c <> o) body ->
  replace_from (o :: old') new 0 (body ++ rest)
  = body ++ replace_from (o :: old') new 0 rest.
Proof.
  induction 1 as [|c body Hc _ IH]; [reflexivity|].
  cbn [app replace_from startswith].
  destruct (N.eqb_spec o c) as [->|_]; [congruence|].
  cbn [andb]. now rewrite IH.
Qed.

Lemma replace_from_plain (o : char) (old' new body : str) :
  Forall (fun c => c <> o) body ->
  replace_from (o :: old') new 0 body = body.
Proof.
  intros Hbody.
  rewrite <- (app_nil_r body) at 1.
  rewrite replace_from_past by exact Hbody. cbn. apply app_nil_r.
Qed.

Lemma startswith_past (b : char) (p after : str) :
  Forall (fun c => c <> b) after -> startswith (b :: p) after = false.
Proof.
  intros [|c after' Hc _]; [reflexivity|].
  cbn [startswith]. destruct (N.eqb_spec b c); [congruence | reflexivity].
Qed.

Lemma replace_from_miss (old new : str) (c : char) (s : str) :
  startswith old (c :: s) = false ->
  replace_from old new 0 (c :: s) = c :: replace_from old new 0 s.
Proof. intros Hmiss. cbn [replace_from]. now rewrite Hmiss. Qed.

(** A closing fence is not taken for an opening one unless the keyword
    follows it. *)
Lemma closing_fence_kept (b : char) (kw new after : str) :
  Forall (fun c => c <> b) after ->
  startswith kw after = false ->
  replace_from (b :: b :: b :: kw) new 0 (b :: b :: b :: after)
  = b :: b :: b :: after.
Proof.
  intros Hafter Hkw.
  rewrite replace_from_miss.
  2:{ change (startswith (b :: b :: b :: kw) (b :: b :: b :: after))
        with (N.eqb b b && (N.eqb b b && (N.eqb b b && startswith kw after))).
      now rewrite Hkw, !andb_false_r. }
  rewrite replace_from_miss.
  2:{ change (startswith (b :: b :: b :: kw) (b :: b :: after))
        with (N.eqb b b && (N.eqb b b && startswith (b :: kw) after)).
      now rewrite startswith_past, !andb_false_r. }
  rewrite replace_from_miss.
  2:{ change (startswith (b :: b :: b :: kw) (b :: after))
        with (N.eqb b b && startswith (b :: b :: kw) after).
      now rewrite startswith_past, andb_false_r. }
  do 3 f_equal. now apply replace_from_plain.
Qed.

Lemma startswith_self (p rest : str) : startswith p (p ++ rest) = true.
Proof.
  induction p as [|x p IH]; [reflexivity|].
  cbn. now rewrite N.eqb_refl, IH.
Qed.

(** An occurrence at the very start is replaced and the scan goes on. *)
Lemma replace_from_hit (old new rest : str) :
  old <> [] ->
  replace_from old new 0 (old ++ rest) = new ++ replace_from old new 0 rest.
Proof.
  intros Hold.
  assert (Hfind : find old (old ++ rest) = Some 0).
  { destruct old as [|o old']; [congruence|].
    rewrite <- app_comm_cons, find_cons, app_comm_cons, startswith_self.
    reflexivity. }
  rewrite replace_from_first with (i := 0); [|exact Hold|exact Hfind].
  change (0 + length old) with (length old).
  rewrite skipn_app, skipn_all, Nat.sub_diag. reflexivity.
Qed.

Lemma fenced_unwrapped (kw before body after : str) :
  Forall (fun c => c <> backtick) before ->
  Forall (fun c => c <> backtick) body ->
  Forall (fun c => c <> backtick) after ->
  startswith kw after = false ->
  replace_from fence [] 0
    (replace_from (fence ++ kw) [] 0
       (before ++ (fence ++ kw) ++ body ++ fence ++ after))
  = before ++ body ++ after.
Proof.
  intros Hbefore Hbody Hafter Hkw.
  assert (Hopening : fence ++ kw = backtick :: backtick :: backtick :: kw)
    by reflexivity.
  assert (Hclosing : fence ++ after = backtick :: backtick :: backtick :: after)
    by reflexivity.
  rewrite Hopening at 1.
  rewrite replace_from_past by assumption.
  rewrite <- Hopening at 1.
  rewrite replace_from_hit by (rewrite Hopening; discriminate).
  rewrite Hopening. cbn [app].
  rewrite replace_from_past by assumption.
  rewrite Hclosing, closing_fence_kept by assumption.
  change fence with (backtick :: lit "``").
  rewrite !replace_from_past by assumption.
  do 2 f_equal.
  change (replace_from (backtick :: lit "``") [] 0
            (backtick :: backtick :: backtick :: after))
    with (replace_from (backtick :: lit "``") [] 0 after).
  now apply replace_from_plain.
Qed.

(** X23. A response whose only backticks are one opening fence and one
    closing fence, the closing fence not followed by the keyword again, is
    cleaned to the text around and inside the fences, stripped: for the
    JSON stages with the opening fence [```json], for the renderer with
    [```latex]. A response without any backtick is only stripped. *)
Theorem fenced_response_is_unwrapped (before body after : str) :
  Forall (fun c => c <> backtick) before ->
  Forall (fun c => c <> backtick) body ->
  Forall (fun c => c <> backtick) after ->
  (startswith (lit "json") after = false ->
   strip_json_fences (before ++ lit "```json" ++ body ++ lit "```" ++ after)
   = strip (before ++ body ++ after))
  /\ (startswith (lit "latex") after = false ->
      strip_latex_fences (before ++ lit "```latex" ++ body ++ lit "```" ++ after)
      = strip (before ++ body ++ after))
  /\ strip_json_fences body = strip body
  /\ strip_latex_fences body = strip body.
Proof.
  intros Hbefore Hbody Hafter.
  unfold strip_json_fences, strip_latex_fences.
  repeat split; try intros Hkw; f_equal.
  - exact (fenced_unwrapped (lit "json") Hbefore Hbody Hafter Hkw).
  - exact (fenced_unwrapped (lit "latex") Hbefore Hbody Hafter Hkw).
  - change (replace (lit "```") [] ?s) with (replace_from fence [] 0 s).
    change (replace (lit "```json") [] ?s)
      with (replace_from (backtick :: lit "``json") [] 0 s).
    rewrite (replace_from_plain (o := backtick)) by exact Hbody.
    unfold fence. change (lit "```") with (backtick :: lit "``").
    now apply replace_from_plain.
  - change (replace (lit "```") [] ?s) with (replace_from fence [] 0 s).
    change (replace (lit "```latex") [] ?s)
      with (replace_from (backtick :: lit "``latex") [] 0 s).
    rewrite (replace_from_plain (o := backtick)) by exact Hbody.
    unfold fence. change (lit "```") with (backtick :: lit "``").
    now apply replace_from_plain.
Qed.

Lemma fenced_response_is_unwrapped_witness :
  strip_json_fences
    (lit "Here you go:
```json
{}
```
")
  = lit "Here you go:

{}".
Proof.
  exact (proj1 (@fenced_response_is_unwrapped
                  (lit "Here you go:
")
                  (lit "
{}
")
                  (lit "
")
                  ltac:(repeat constructor; discriminate)
                  ltac:(repeat constructor; discriminate)
                  ltac:(repeat constructor; discriminate))
           eq_refl).
Defined.

(** Removing the triples of a character leaves no triple: what remains of a
    run is shorter than three. *)
Lemma triple_not_restored (b c : char) (s : str) :
  startswith [b; b; b] (c :: s) = false ->
  startswith [b; b; b] (c :: replace_from [b; b; b] [] 0 s) = false.
Proof.
  intros Hmiss.
  destruct (N.eqb_spec b c) as [<-|Hc];
    [|cbn [startswith]; now destruct (N.eqb_spec b c)].
  destruct s as [|d s]; [cbn; now rewrite N.eqb_refl|].
  destruct (N.eqb_spec b d) as [<-|Hd].
  - destruct s as [|e s].
    + rewrite replace_from_miss by (cbn [startswith]; now rewrite N.eqb_refl).
      cbn [replace_from startswith]. now rewrite !N.eqb_refl.
    + assert (He : N.eqb b e = false).
      { cbn [startswith] in Hmiss. rewrite !N.eqb_refl in Hmiss.
        cbn [andb] in Hmiss. now rewrite andb_true_r in Hmiss. }
      rewrite replace_from_miss
        by (cbn [startswith]; now rewrite N.eqb_refl, He).
      rewrite replace_from_miss by (cbn [startswith]; now rewrite He).
      cbn [startswith]. now rewrite !N.eqb_refl, He.
  - rewrite replace_from_miss
      by (cbn [startswith]; now destruct (N.eqb_spec b d)).
    cbn [startswith]. rewrite N.eqb_refl.
    now destruct (N.eqb_spec b d).
Qed.

Lemma no_triple_left (b : char) (s : str) :
  find [b; b; b] (replace_from [b; b; b] [] 0 s) = None.
Proof.
  remember (length s) as n eqn:Hn. revert s Hn.
  induction n as [n IH] using lt_wf_ind. intros s Hn.
  destruct s as [|c s]; [reflexivity|].
  destruct (startswith [b; b; b] (c :: s)) eqn:Hstart.
  - pose proof Hstart as Hs. apply startswith_split in Hs.
    rewrite Hs, replace_from_hit by discriminate. cbn [app].
    apply (IH (length (skipn (length [b; b; b]) (c :: s)))); [|reflexivity].
    subst n. apply (f_equal (@length char)) in Hs.
    rewrite length_app in Hs. cbn [length] in Hs |- *. lia.
  - rewrite replace_from_miss by exact Hstart.
    rewrite find_cons, triple_not_restored by exact Hstart.
    rewrite (IH (length s)); [reflexivity | subst n; cbn; lia | reflexivity].
Qed.

Lemma find_none_tail (old : str) (c : char) (s : str) :
  find old (c :: s) = None -> find old s = None.
Proof.
  rewrite find_cons. destruct (startswith old (c :: s)); [discriminate|].
  now destruct (find old s).
Qed.

Lemma find_none_lstrip (old : str) (p : char -> bool) (s : str) :
  find old s = None -> find old (lstrip_by p s) = None.
Proof.
  induction s as [|c s IH]; intros Hs; [exact Hs|].
  cbn [lstrip_by]. destruct (p c); [|exact Hs].
  apply IH. now apply find_none_tail with c.
Qed.

Lemma find_none_firstn (old : str) (n : nat) (s : str) :
  old <> [] -> find old s = None -> find old (firstn n s) = None.
Proof.
  intros Hold. revert n; induction s as [|c s IH]; intros n Hs.
  - now rewrite firstn_nil.
  - destruct n as [|n].
    + cbn. now rewrite startswith_nil_r.
    + cbn [firstn]. rewrite find_cons in Hs |- *.
      destruct (startswith old (c :: s)) eqn:Hstart; [discriminate|].
      destruct (startswith old (c :: firstn n s)) eqn:Hcut.
      * change (c :: firstn n s) with (firstn (S n) (c :: s)) in Hcut.
        apply startswith_firstn in Hcut. congruence.
      * rewrite IH; [reflexivity|]. now destruct (find old s).
Qed.

Lemma lstrip_by_skipn (p : char -> bool) (s : str) :
  exists j, lstrip_by p s = skipn j s.
Proof.
  induction s as [|c s (j & IH)]; [now exists 0|].
  cbn [lstrip_by]. destruct (p c); [now exists (S j) | now exists 0].
Qed.

Lemma rstrip_by_firstn (p : char -> bool) (s : str) :
  exists k, rstrip_by p s = firstn k s.
Proof.
  unfold rstrip_by. destruct (lstrip_by_skipn p (rev s)) as (j & ->).
  rewrite skipn_rev, rev_involutive. eauto.
Qed.

Lemma find_none_strip (old s : str) :
  old <> [] -> find old s = None -> find old (strip s) = None.
Proof.
  intros Hold Hs. unfold strip.
  destruct (rstrip_by_firstn isspace (lstrip_by isspace s)) as (k & ->).
  now apply find_none_firstn, find_none_lstrip.
Qed.

(** X24. Whatever the model answers, the text the JSON stages hand to the
    parser and the content the renderer merges into the template contain no
    fence marker: every triple of backticks is gone, also those that the
    removal of [```json] or [```latex] brings together. *)
Theorem cleaned_response_has_no_fence (text : str) :
  find (lit "```") (strip_json_fences text) = None
  /\ find (lit "```") (strip_latex_fences text) = None.
Proof.
  unfold strip_json_fences, strip_latex_fences.
  split; apply find_none_strip; try discriminate;
    exact (no_triple_left backtick _).
Qed.

(* ------------------------------------------------------------------ *)
(** ** Generation without an index in memory *)

Section NoIndex.

Variable X : Externals.

(** X13. With no index in memory, [generate_tailored_content] fails softly
    before it looks at the instruction or the override. If none is saved for
    the user it returns the not-found record and calls nothing. If one is
    saved but loading it raises, it returns the failure record with the text
    of that exception, and the engine is left without an index. *)
Theorem generate_tailored_content_without_index
    (instruction user_id : str) (context_override : option str) (st : State) :
  vector_store st = None ->
  (assoc (store_path_of X user_id) (persisted st) = None ->
   generate_tailored_content X instruction user_id context_override st =
   (Ok (GenFail (lit "Vector store not found. Please analyze documents first.")
          (lit "Call /api/rag/analyze first to ingest documents")), st))
  /\ (forall saved e,
        assoc (store_path_of X user_id) (persisted st) = Some saved ->
        load_error X (log st) (store_path_of X user_id) = Some e ->
        generate_tailored_content X instruction user_id context_override st =
        (Ok (GenFail (exn_msg e) (lit "Failed to generate tailored content")),
         record (EvLoadLocal (store_path_of X user_id)) st)
        /\ vector_store (record (EvLoadLocal (store_path_of X user_id)) st)
           = None).
Proof.
  intros Hstore. split.
  - intros Hdisk.
    unfold generate_tailored_content. run_method.
    rewrite Hstore, Hdisk. reflexivity.
  - intros saved e Hdisk Hload. split; [|exact Hstore].
    unfold generate_tailored_content. run_method.
    rewrite Hstore, Hdisk. cbv beta iota. rewrite Hload. reflexivity.
Qed.

End NoIndex.

Lemma generate_tailored_content_without_index_witness :
  generate_tailored_content (Stub.says []) (lit "emphasize Python") (lit "u1")
    (Some (lit "MY OWN CONTEXT")) Stub.empty_state
  = (Ok (GenFail (lit "Vector store not found. Please analyze documents first.")
           (lit "Call /api/rag/analyze first to ingest documents")),
     Stub.empty_state).
Proof.
  exact (proj1 (@generate_tailored_content_without_index (Stub.says [])
                  (lit "emphasize Python") (lit "u1")
                  (Some (lit "MY OWN CONTEXT")) Stub.empty_state eq_refl)
           eq_refl).
Defined.
